(** * SP500_Momentum: the mover-ranking and backtesting core

    A shallow embedding of [src/backtest.py], [src/trading_opportunities.py]
    and [src/alpaca_live_trading.py].

    Prices, quantities, cash and PnL are IEEE-754 binary64 values in the
    source (NumPy [float64] scalars read from pandas data frames, Python
    [float]s elsewhere); they are embedded as Rocq's primitive [float], which
    is the same format with the same rounding, so that evaluating a definition
    gives the value the program computes, infinities and NaN included. *)

From Stdlib Require Import ZArith List String Bool Lia Floats Permutation Sorted.
Import ListNotations.

Set Implicit Arguments.

(** ** Numbers *)

Module Num.

Local Open Scope float_scope.

(** The nearest binary64 value to [m * 2^e] (ties to even). *)
Definition of_Z_exp (m e : Z) (szero : bool) : float :=
  SF2Prim (binary_normalize prec emax m e szero).

(** [float(n)] for a Python [int]. *)
Definition of_Z (n : Z) : float := of_Z_exp n 0 false.

(** C's truth value of a floating-point expression: [if (x)] holds for every
    [x] other than the two zeros, NaN included. *)
Definition truthy (x : float) : bool := negb (x =? 0).

(** C99 [fmod]: the exact remainder [a - n*b], [n] the quotient truncated
    toward zero; the result carries the sign of [a]. *)
Definition fmod (a b : float) : float :=
  match Prim2SF a, Prim2SF b with
  | S754_nan, _ | _, S754_nan => nan
  | S754_infinity _, _ => nan
  | _, S754_zero _ => nan
  | S754_zero _, _ => a
  | S754_finite _ _ _, S754_infinity _ => a
  | S754_finite sa ma ea, S754_finite _ mb eb =>
      let e := Z.min ea eb in
      let r := Z.rem (Z.shiftl (Zpos ma) (ea - e)) (Z.shiftl (Zpos mb) (eb - e)) in
      of_Z_exp (cond_Zopp sa r) e sa
  end.

(** C99 [floor]. *)
Definition floor (x : float) : float :=
  match Prim2SF x with
  | S754_finite s m e =>
      if (0 <=? e)%Z then x
      else of_Z_exp (Z.shiftr (cond_Zopp s (Zpos m)) (- e)) 0 s
  | _ => x
  end.

(** C99 [copysign(0, x)]. *)
Definition zero_with_sign_of (x : float) : float :=
  if get_sign x then neg_zero else zero.

(** The floored quotient for a divisor that is not zero, as CPython's
    [float_floor_div] and NumPy's [npy_divmod] both compute it: recovered from
    [fmod] and snapped to the nearest integral value. *)
Definition floor_quotient (a b : float) : float :=
  let mod_ := fmod a b in
  let div := (a - mod_) / b in
  let div :=
    if truthy mod_ && negb (Bool.eqb (b <? 0) (mod_ <? 0)) then div - 1 else div in
  if truthy div then
    let floordiv := floor div in
    if 0.5 <? div - floordiv then floordiv + 1 else floordiv
  else zero_with_sign_of (a / b).

(** [a // b] on NumPy [float64] scalars ([npy_floor_divide]): a zero divisor
    gives [a / b], that is an infinity or NaN (with a RuntimeWarning, which is
    not an exception). *)
Definition floor_divide (a b : float) : float :=
  if b =? 0 then a / b else floor_quotient a b.

(** Python's [int(x)] for a float: truncation toward zero; NaN and the
    infinities raise ([None]). *)
Definition int_of_float (x : float) : option Z :=
  match Prim2SF x with
  | S754_zero _ => Some 0%Z
  | S754_finite s m e =>
      Some (cond_Zopp s (if (0 <=? e)%Z then Z.shiftl (Zpos m) e
                         else Z.shiftr (Zpos m) (- e)))
  | _ => None
  end.

(** The shape of a binary64 value, read off its specification-level image. *)
Definition is_zero_sf (x : spec_float) : bool :=
  match x with S754_zero _ => true | _ => false end.

Definition is_finite_sf (x : spec_float) : bool :=
  match x with S754_zero _ | S754_finite _ _ _ => true | _ => false end.

End Num.

(** ** Python values shared by the three files *)

Module Py.

(** The exceptions the modelled code lets escape. *)
Inductive exn : Set :=
| ZeroDivisionError
| IndexError
| OverflowError.

Inductive result (A : Type) : Type :=
| Ok (a : A)
| Raise (e : exn).

Arguments Ok {A} a.
Arguments Raise {A} e.

(** A [dict] with string keys, in insertion order; a key occurs once. *)
Definition dict (V : Type) : Type := list (string * V).

Section Dict.
Variable V : Type.

(** [d.get(k)]: [None] when [k not in d]. *)
Fixpoint get (k : string) (d : dict V) : option V :=
  match d with
  | [] => None
  | (k', v) :: d' => if String.eqb k k' then Some v else get k d'
  end.
End Dict.

(** [list.sort] is stable; [before y x] tells that [y] has to come strictly
    before [x].  An element moves left only past those it has to precede, so
    elements that compare equal keep their order.  For keys that a strict
    weak order compares, which floats other than NaN are, this is the one
    order a stable sort can give; where Python places a NaN key depends on
    the runs its merge sort finds and is not modelled. *)
Section Sort.
Variable A : Type.
Variable before : A -> A -> bool.

Fixpoint insert (x : A) (l : list A) : list A :=
  match l with
  | [] => [x]
  | y :: l' => if before y x then y :: insert x l' else x :: y :: l'
  end.

Definition sort (l : list A) : list A := fold_right insert [] l.
End Sort.

(** [l[:n]] and [l[-n:]] for [n > 0]. *)
Definition slice_first (A : Type) (n : nat) (l : list A) : list A := firstn n l.
Definition slice_last (A : Type) (n : nat) (l : list A) : list A :=
  skipn (List.length l - n) l.

End Py.

(** ** src/backtest.py *)

Module Backtest.

Import Num Py.
Local Open Scope float_scope.

(** A pandas Timestamp of the index. *)
Definition date : Set := Z.
Bind Scope Z_scope with date.

(** One row of a symbol's data frame: the columns kept by
    [fetch_alpaca_historical_data]. *)
Record Bar : Set := mkBar {
  open : float;
  close : float;
  high : float;
  low : float;
  volume : float
}.

(** A data frame: its rows in index order; an index label occurs once. *)
Definition DataFrame : Set := list (date * Bar).

(** [historical_data]: symbol to data frame. *)
Definition HistoricalData : Type := dict DataFrame.

(** [df.loc[date, column]] reads the row labelled [date]; [None] is the
    KeyError of a label that is not in the index. *)
Fixpoint loc (df : DataFrame) (d : date) : option Bar :=
  match df with
  | [] => None
  | (d', bar) :: df' => if Z.eqb d d' then Some bar else loc df' d
  end.

(** [df.index] *)
Definition index (df : DataFrame) : list date := map fst df.

Definition calculate_percentage_change (previous_close today_open : float) : float :=
  (today_open - previous_close) / previous_close * 100.

(** The loop of [get_top_and_bottom_movers]: both [prev_close] and
    [today_open] are read from the row of [date]. *)
Fixpoint movers_at (historical_data : HistoricalData) (d : date)
  : list (string * float) :=
  match historical_data with
  | [] => []
  | (symbol, df) :: rest =>
      match loc df d with
      | Some row =>
          let prev_close := close row in
          let today_open := open row in
          let change := calculate_percentage_change prev_close today_open in
          (symbol, change) :: movers_at rest d
      | None => movers_at rest d
      end
  end.

(** [movers.sort(key=lambda x: x[1], reverse=True)] *)
Definition sort_movers (movers : list (string * float)) : list (string * float) :=
  sort (fun y x => snd x <? snd y) movers.

Definition get_top_and_bottom_movers (historical_data : HistoricalData) (d : date)
  : list (string * float) * list (string * float) :=
  let movers := sort_movers (movers_at historical_data d) in
  let top_10 := slice_first 10 movers in
  let bottom_10 := slice_last 10 movers in
  (top_10, bottom_10).

(** A trade dictionary: keys [symbol], [quantity], [price], [trade_type]. *)
Record Trade : Set := mkTrade {
  symbol : string;
  quantity : float;
  price : float;
  trade_type : string
}.

(** [place_trades] appends to [portfolio] in place; the updated list is
    returned here. *)
Fixpoint place_trades (portfolio : list Trade) (movers : list (string * float))
    (allocation : float) (prices : dict float) (trade_type : string) : list Trade :=
  match movers with
  | [] => portfolio
  | (symbol, _) :: rest =>
      match get symbol prices with
      | None => place_trades portfolio rest allocation prices trade_type
      | Some price =>
          let quantity := floor_divide allocation price in
          let position :=
            mkTrade symbol
                    (if String.eqb trade_type "buy" then quantity else - quantity)
                    price trade_type in
          place_trades (portfolio ++ [position]) rest allocation prices trade_type
      end
  end.

(** The trade log: a CSV file, [None] while it does not exist. *)
Inductive CsvRow : Set :=
| Header
| Row (d : date) (symbol : string) (quantity price : float) (trade_type : string).

Definition File : Set := option (list CsvRow).

Definition row_of (d : date) (trade : Trade) : CsvRow :=
  Row d (symbol trade) (quantity trade) (price trade) (trade_type trade).

(** Opens the file for appending and writes the header only into a new file. *)
Definition log_trades_to_csv (d : date) (portfolio : list Trade) (file : File) : File :=
  match file with
  | None => Some (Header :: map (row_of d) portfolio)
  | Some rows => Some (rows ++ map (row_of d) portfolio)
  end.

(** The loop of [close_positions_and_log], with its two accumulators. *)
Fixpoint close_positions (portfolio : list Trade) (prices : dict float)
    (pnl : float) (closing_trades : list Trade) : float * list Trade :=
  match portfolio with
  | [] => (pnl, closing_trades)
  | position :: rest =>
      let close_price :=
        match get (symbol position) prices with Some p => p | None => 0 end in
      let pnl := pnl + (close_price - price position) * quantity position in
      let closing_trades :=
        closing_trades ++ [mkTrade (symbol position) (- quantity position) close_price "close"] in
      close_positions rest prices pnl closing_trades
  end.

Definition close_positions_and_log (portfolio : list Trade) (prices : dict float)
    (d : date) (trade_log_file : File) : float * File :=
  let '(pnl, closing_trades) := close_positions portfolio prices 0 [] in
  (pnl, log_trades_to_csv d closing_trades trade_log_file).

(** [{s: historical_data[s].loc[date, column] for s in historical_data
      if date in historical_data[s].index}] *)
Fixpoint prices_at (column : Bar -> float) (historical_data : HistoricalData) (d : date)
  : dict float :=
  match historical_data with
  | [] => []
  | (s, df) :: rest =>
      match loc df d with
      | Some row => (s, column row) :: prices_at column rest d
      | None => prices_at column rest d
      end
  end.

(** What the loop of [backtest] carries from one date to the next. *)
Record State : Set := mkState {
  pnl_history : list float;
  cash_balance : float;
  trade_log_file : File
}.

(** The trading part of one iteration of the loop of [backtest]: the
    portfolio, emptied first, is filled at the open prices, logged, and closed
    at the close prices of the same date. *)
Definition simulate_day (historical_data : HistoricalData) (d : date)
    (top_movers bottom_movers : list (string * float)) (allocation : float)
    (trade_log_file : File) : float * File :=
  let portfolio := [] in
  let prices := prices_at open historical_data d in
  let portfolio := place_trades portfolio top_movers allocation prices "buy" in
  let portfolio := place_trades portfolio bottom_movers allocation prices "sell" in
  let trade_log_file := log_trades_to_csv d portfolio trade_log_file in
  let prices_close := prices_at close historical_data d in
  close_positions_and_log portfolio prices_close d trade_log_file.

(** One iteration of the loop of [backtest]. *)
Definition backtest_day (historical_data : HistoricalData) (allocation_pct : float)
    (st : State) (d : date) : State :=
  let '(top_movers, bottom_movers) := get_top_and_bottom_movers historical_data d in
  let allocation := cash_balance st * allocation_pct / 20 in
  let '(pnl, file) :=
    simulate_day historical_data d top_movers bottom_movers allocation
                 (trade_log_file st) in
  mkState (pnl_history st ++ [pnl]) (cash_balance st + pnl) file.

(** [sorted(list(df.index))] *)
Definition sorted_dates (df : DataFrame) : list date :=
  sort (fun y x => (y <? x)%Z) (index df).

(** [backtest] returns [(pnl_history, cash_balance)] and leaves the trade log
    in [trade_log_file]; an existing log is removed first. *)
Definition backtest (historical_data : HistoricalData) (cash allocation_pct : float)
    (trade_log_file : File) : result State :=
  let trade_log_file : File := None in
  match historical_data with
  | [] => Raise IndexError
  | (_, df) :: _ =>
      let dates := sorted_dates df in
      Ok (fold_left (backtest_day historical_data allocation_pct) dates
                    (mkState [] cash trade_log_file))
  end.

(** pandas: [Series.mean] and [Series.std] skip NaN entries; [std] is the
    sample standard deviation (divisor [count - 1]) and is NaN for fewer than
    two entries.  The entries are added from left to right, starting at 0:
    this is the order of NumPy's summation for fewer than 8 entries; from 8
    entries on NumPy adds in blocks (pairwise summation) and the last bits of
    the mean and of the deviation can differ from the values here.  What is
    proved about these two functions below does not depend on the order of
    the additions. *)
Definition fsum (xs : list float) : float := fold_left add xs 0.

Definition dropna (xs : list float) : list float :=
  filter (fun x => negb (is_nan x)) xs.

Definition Series_mean (xs : list float) : float :=
  let values := dropna xs in
  fsum values / of_Z (Z.of_nat (List.length values)).

Definition Series_std (xs : list float) : float :=
  let values := dropna xs in
  let count := List.length values in
  if (count <=? 1)%nat then nan
  else
    let avg := fsum values / of_Z (Z.of_nat count) in
    sqrt (fsum (map (fun x => (avg - x) * (avg - x)) values)
          / of_Z (Z.of_nat (count - 1))).

Definition calculate_sharpe_ratio (daily_returns : list float) (risk_free_rate : float)
  : float :=
  let mean_return := Series_mean daily_returns in
  let std_dev := Series_std daily_returns in
  (mean_return - risk_free_rate / 252) / std_dev.

End Backtest.

(** ** src/trading_opportunities.py *)

Module TradingOpportunities.

Import Num Py.
Local Open Scope float_scope.

(** One bar of the data API's JSON answer: the fields ['o'] and ['c']. *)
Record ApiBar : Set := mkApiBar {
  o : float;
  c : float
}.

(** What the request for one symbol comes to: the list under ['bars'], or
    [None] when the request raised or the answer holds no bars. *)
Definition Response : Set := option (list ApiBar).

(** [get_daily_bar] after the request: [bars[-2]['c']] and [bars[-1]['o']]
    when there are at least two bars. *)
Definition get_daily_bar (response : Response) : option float * option float :=
  match response with
  | None => (None, None)
  | Some bars =>
      match rev bars with
      | today :: previous :: _ => (Some (c previous), Some (o today))
      | _ => (None, None)
      end
  end.

Definition calculate_percentage_change (previous_close today_open : float) : float :=
  if previous_close =? 0 then 0
  else ((today_open - previous_close) / previous_close) * 100.

(** The loop of [get_top_and_bottom_movers] over [SP500_SYMBOLS]; [api] gives
    the answer of the data API for each symbol. *)
Fixpoint movers_of (symbols : list string) (api : string -> Response)
  : list (string * float) :=
  match symbols with
  | [] => []
  | symbol :: rest =>
      match get_daily_bar (api symbol) with
      | (Some previous_close, Some today_open) =>
          let percent_change := calculate_percentage_change previous_close today_open in
          (symbol, percent_change) :: movers_of rest api
      | _ => movers_of rest api
      end
  end.

Definition get_top_and_bottom_movers (symbols : list string) (api : string -> Response)
  : list (string * float) * list (string * float) :=
  let movers := sort (fun y x => snd x <? snd y) (movers_of symbols api) in
  let top_10_gainers := slice_first 10 movers in
  let bottom_10_losers := slice_last 10 movers in
  (top_10_gainers, bottom_10_losers).

End TradingOpportunities.

(** ** src/alpaca_live_trading.py *)

Module AlpacaLiveTrading.

Import Num Py.
Local Open Scope float_scope.

(** [(cash_balance * percentage) / num_positions] with Python's [float] and
    [int]: the divisor is converted to [float] first (an [int] too large for
    that raises OverflowError) and a zero divisor raises ZeroDivisionError. *)
Definition calculate_allocation (cash_balance percentage : float) (num_positions : Z)
  : result float :=
  if is_infinity (of_Z num_positions) then Raise OverflowError
  else if (num_positions =? 0)%Z then Raise ZeroDivisionError
  else Ok ((cash_balance * percentage) / of_Z num_positions).

(** An order handed to [place_order]. *)
Record Order : Set := mkOrder {
  order_symbol : string;
  qty : Z;
  side : string
}.

(** [int(allocation_per_position // current_price)] on Python floats; [None]
    stands for the exception (a zero price, or a quotient that is not a
    finite number) that the [try] of the caller catches. *)
Definition shares_for (allocation_per_position current_price : float) : option Z :=
  if current_price =? 0 then None
  else int_of_float (floor_quotient allocation_per_position current_price).

(** One of the two loops of [execute_strategy]; [latest_close] is
    [api.get_latest_bar(symbol).c], [None] when the call raises.  The result
    lists the calls of [place_order]. *)
Fixpoint place_orders (movers : list (string * float)) (allocation_per_position : float)
    (latest_close : string -> option float) (side : string) : list Order :=
  match movers with
  | [] => []
  | (symbol, _) :: rest =>
      let later := place_orders rest allocation_per_position latest_close side in
      match latest_close symbol with
      | None => later
      | Some current_price =>
          match shares_for allocation_per_position current_price with
          | None => later
          | Some shares =>
              if (0 <? shares)%Z then mkOrder symbol shares side :: later else later
          end
      end
  end.

Definition execute_strategy (top_movers bottom_movers : list (string * float))
    (allocation_per_position : float) (latest_close : string -> option float)
  : list Order :=
  place_orders top_movers allocation_per_position latest_close "buy"
  ++ place_orders bottom_movers allocation_per_position latest_close "sell".

End AlpacaLiveTrading.

(** ** Sample data *)

Module Samples.

Import Num Py Backtest.
Local Open Scope string_scope.
Local Open Scope float_scope.

(** A bar with the given open and close. *)
Definition bar (o c : float) : Bar :=
  mkBar o c (if o <? c then c else o) (if o <? c then o else c) 1000.

(** One symbol, two dates: open 10, close 12, then open 12, close 11. *)
Definition two_day_store : HistoricalData :=
  [("A", [(1%Z, bar 10 12); (2%Z, bar 12 11)])].

(** One symbol whose bar closes at zero. *)
Definition zero_close_store : HistoricalData :=
  [("A", [(1%Z, bar 5 0)])].

(** One symbol priced above the allocation of a 1000 dollar account. *)
Definition expensive_store : HistoricalData :=
  [("A", [(1%Z, bar 100 100)])].

(** Eleven symbols, two dates.  On the first date [S00] falls least
    (100 to 110 reads as -9.09 for the ranking), [S01] to [S09] tie below it
    and [S10], too expensive for one share, comes last; on the second date
    every symbol opens and closes at 1. *)
Definition frame (o c : float) : DataFrame := [(1%Z, bar o c); (2%Z, bar 1 1)].

Definition eleven_store : HistoricalData :=
  [("S00", frame 100 110);
   ("S01", frame 100 125); ("S02", frame 100 125); ("S03", frame 100 125);
   ("S04", frame 100 125); ("S05", frame 100 125); ("S06", frame 100 125);
   ("S07", frame 100 125); ("S08", frame 100 125); ("S09", frame 100 125);
   ("S10", frame 6000 12000)].

(** The default of [calculate_sharpe_ratio]: the binary64 value nearest to 0.02. *)
Definition risk_free_rate : float := 0x1.47ae147ae147bp-6.

End Samples.

(** ** What one date of the backtest opens and closes *)

Module Day.

Import Num Py Backtest.
Local Open Scope float_scope.

(** The price a position is closed at: [prices.get(symbol, 0)]. *)
Definition close_price (prices : dict float) (position : Trade) : float :=
  match get (symbol position) prices with Some p => p | None => 0 end.

(** [(close_price - entry_price) * quantity] *)
Definition pnl_contribution (prices : dict float) (position : Trade) : float :=
  (close_price prices position - price position) * quantity position.

(** The record that flattens a position. *)
Definition closing_trade (prices : dict float) (position : Trade) : Trade :=
  mkTrade (symbol position) (- quantity position) (close_price prices position) "close".

(** What [place_trades] appends for one mover. *)
Definition opened (allocation : float) (prices : dict float) (trade_type : string)
    (mover : string * float) : list Trade :=
  match get (fst mover) prices with
  | None => []
  | Some price =>
      let quantity := floor_divide allocation price in
      [mkTrade (fst mover)
               (if String.eqb trade_type "buy" then quantity else - quantity)
               price trade_type]
  end.

(** The store without the symbols that have no row at [d]. *)
Definition present_at (d : date) (historical_data : HistoricalData) : HistoricalData :=
  filter (fun entry => match loc (snd entry) d with Some _ => true | None => false end)
         historical_data.

End Day.

(** ** The split of a ranked list into top and bottom *)

Module Ranking.

(** [top] holds the first ten entries of [ranked] and [bottom] the last ten,
    each the whole list when there are fewer; an entry that is among both the
    first ten and the last ten stands in both. *)
Definition end_slices (A : Type) (ranked top bottom : list A) : Prop :=
  let n := List.length ranked in
  (forall i, i < 10 -> nth_error top i = nth_error ranked i)
  /\ List.length top = Nat.min 10 n
  /\ (forall j, nth_error bottom j = nth_error ranked (n - 10 + j))
  /\ List.length bottom = Nat.min 10 n
  /\ (0 < n < 20 ->
      exists i j m, nth_error top i = Some m /\ nth_error bottom j = Some m
                    /\ nth_error ranked i = Some m)
  /\ (n <= 10 -> top = ranked /\ bottom = ranked).

(** [y] stands somewhere before [x] in [l]. *)
Definition precedes (A : Type) (y x : A) (l : list A) : Prop :=
  exists l1 l2 l3, l = l1 ++ y :: l2 ++ x :: l3.

End Ranking.

(** ** More of src/trading_opportunities.py *)

Module Symbols.

(** A Python [str]: the list of its code points. *)
Definition str : Set := list N.

(** [str.isspace] of one character, the set [str.strip] removes. *)
Definition isspace (ch : N) : bool :=
  ((9 <=? ch) && (ch <=? 13)
   || (28 <=? ch) && (ch <=? 32)
   || (ch =? 133) || (ch =? 160) || (ch =? 5760)
   || (8192 <=? ch) && (ch <=? 8202)
   || (ch =? 8232) || (ch =? 8233) || (ch =? 8239) || (ch =? 8287)
   || (ch =? 12288))%N.

Fixpoint lstrip (s : str) : str :=
  match s with
  | [] => []
  | ch :: rest => if isspace ch then lstrip rest else s
  end.

Definition rstrip (s : str) : str := rev (lstrip (rev s)).

(** [s.strip()] *)
Definition strip (s : str) : str := lstrip (rstrip s).

(** What [open(file_path, 'r')] gives: FileNotFoundError, or the lines that
    iterating the file yields (each with its line end). *)
Inductive TextFile : Set :=
| FileNotFound
| Lines (lines : list str).

(** The truth value of a [str]. *)
Definition nonempty (s : str) : bool :=
  match s with [] => false | _ => true end.

(** [[line.strip() for line in file if line.strip()]] *)
Fixpoint stripped_lines (lines : list str) : list str :=
  match lines with
  | [] => []
  | line :: rest =>
      if nonempty (strip line) then strip line :: stripped_lines rest
      else stripped_lines rest
  end.

Definition load_sp500_symbols (file : TextFile) : list str :=
  match file with
  | FileNotFound => []
  | Lines lines => stripped_lines lines
  end.

End Symbols.

Module Calendar.

Import Py.
Local Open Scope Z_scope.

(** A date as its proleptic Gregorian ordinal ([date.toordinal()]): day 1 is
    0001-01-01, a Monday. *)
Definition weekday (ordinal : Z) : Z := (ordinal + 6) mod 7.

(** [get_previous_trading_day] for the date [today]; the date is returned
    before its formatting as text.  Subtracting below the first date raises
    OverflowError. *)
Definition get_previous_trading_day (today : Z) : result Z :=
  let offset := Z.max 1 ((weekday today + 6) mod 7 - 3) in
  let previous_trading_day := today - offset in
  if previous_trading_day <? 1 then Raise OverflowError
  else Ok previous_trading_day.

End Calendar.

(** ** More of src/alpaca_live_trading.py *)

Module LiveClose.

Import Num Py AlpacaLiveTrading.
Local Open Scope string_scope.
Local Open Scope float_scope.

(** An open position of the account: [position.symbol] and
    [int(position.qty)], [None] when [int] rejects the text. *)
Record Position : Set := mkPosition {
  position_symbol : string;
  position_qty : option Z
}.

(** A fill: [activity.symbol], [float(activity.cum_qty)] and
    [float(activity.price)], [None] when [float] rejects the text. *)
Record Activity : Set := mkActivity {
  activity_symbol : string;
  cum_qty : option float;
  activity_price : option float
}.

(** The inner loop of [close_all_positions]; [None] when a conversion
    raises. *)
Fixpoint realized (symbol side : string) (activities : list Activity)
    (realized_pnl : float) : option float :=
  match activities with
  | [] => Some realized_pnl
  | activity :: rest =>
      if String.eqb (activity_symbol activity) symbol then
        match cum_qty activity, activity_price activity with
        | Some q, Some p =>
            realized symbol side rest
              (realized_pnl + q * p * (if String.eqb side "buy" then -1 else 1))
        | _, _ => None
        end
      else realized symbol side rest realized_pnl
  end.

(** The loop of [close_all_positions]: the calls of [place_order] and the
    realized PnL printed per position.  [get_activities n] is what the
    [n]-th call of [api.get_activities] returns, [None] when it raises.  An
    exception ends the loop: the enclosing [try] catches it. *)
Fixpoint close_loop (positions : list Position)
    (get_activities : nat -> option (list Activity)) (call : nat)
  : list Order * list (string * float) :=
  match positions with
  | [] => ([], [])
  | position :: rest =>
      let symbol := position_symbol position in
      match position_qty position with
      | None => ([], [])
      | Some q =>
          let qty := Z.abs q in
          let side := if (0 <? q)%Z then "sell" else "buy" in
          let order := mkOrder symbol qty side in
          match get_activities call with
          | None => ([order], [])
          | Some activities =>
              match realized symbol side activities 0 with
              | None => ([order], [])
              | Some realized_pnl =>
                  let '(orders, printed) := close_loop rest get_activities (S call) in
                  (order :: orders, (symbol, realized_pnl) :: printed)
              end
          end
      end
  end.

(** [list_positions] is what [api.list_positions()] returns, [None] when it
    raises. *)
Definition close_all_positions (list_positions : option (list Position))
    (get_activities : nat -> option (list Activity))
  : list Order * list (string * float) :=
  match list_positions with
  | None => ([], [])
  | Some positions => close_loop positions get_activities 0
  end.

(** The order that closes a position of [q] shares. *)
Definition closes (position : Position) (order : Order) : Prop :=
  exists q,
    position_qty position = Some q
    /\ order_symbol order = position_symbol position
    /\ qty order = Z.abs q
    /\ side order = (if (0 <? q)%Z then "sell" else "buy").

End LiveClose.

(** ** More of src/backtest.py *)

Module Performance.

Import Num Py Backtest.
Local Open Scope float_scope.

(** [sum(xs)] for a list of NumPy [float64] values, as [backtest] returns
    them: added from the left, starting from 0. *)
Definition sum (xs : list float) : float := fold_left add xs 0.

(** [[sum(pnl_history[:i+1]) for i in range(len(pnl_history))]] *)
Definition cumulative_pnl (pnl_history : list float) : list float :=
  map (fun i => sum (firstn (i + 1) pnl_history)) (seq 0 (List.length pnl_history)).

(** What [analyze_performance] prints and plots. *)
Record Report : Set := mkReport {
  final_portfolio_value : float;
  total_pnl : float;
  sharpe_ratio : float;
  plotted : list float
}.

Definition analyze_performance (pnl_history : list float) (cash : float) : Report :=
  let cumulative_pnl := cumulative_pnl pnl_history in
  mkReport (cash + sum cumulative_pnl) (sum pnl_history)
           (calculate_sharpe_ratio pnl_history Samples.risk_free_rate)
           cumulative_pnl.

End Performance.

(** ** Rows of the trade log *)

Module TradeLog.

Import Num Py Backtest.
Local Open Scope string_scope.

(** A trade row of date [d]. *)
Definition dated (d : date) (row : CsvRow) : Prop :=
  match row with
  | Header => False
  | Row d' _ _ _ _ => d' = d
  end.

(** A trade row whose symbol has a bar at the row's date and whose price is
    the open of that bar for a [buy] or [sell] and its close for a [close]. *)
Definition priced_from (historical_data : HistoricalData) (row : CsvRow) : Prop :=
  match row with
  | Header => False
  | Row d s _ p trade_type =>
      exists df bar,
        In (s, df) historical_data /\ loc df d = Some bar
        /\ (((trade_type = "buy" \/ trade_type = "sell") /\ p = open bar)
            \/ (trade_type = "close" /\ p = close bar))
  end.

End TradeLog.

(** * Properties *)

(** ** Binary64 arithmetic *)

Module FloatFacts.

Import Num.
Local Open Scope float_scope.

Lemma Prim2SF_zero : Prim2SF 0 = S754_zero false.
Proof. reflexivity. Qed.

Lemma Prim2SF_infinity : Prim2SF infinity = S754_infinity false.
Proof. reflexivity. Qed.

Lemma Prim2SF_nan : Prim2SF nan = S754_nan.
Proof. reflexivity. Qed.

Lemma SFcompare_refl (s : bool) (m : positive) (e : Z) :
  SFcompare (S754_finite s m e) (S754_finite s m e) = Some Eq.
Proof.
  simpl. rewrite Z.compare_refl.
  assert (H : Pos.compare_cont Eq m m = Eq) by apply Pos.compare_refl.
  rewrite H. now destruct s.
Qed.

(** Python's [x == 0] holds exactly for the two zeros. *)
Lemma eqb_zero_shape (x : float) : (x =? 0) = is_zero_sf (Prim2SF x).
Proof.
  rewrite eqb_spec, Prim2SF_zero.
  now destruct (Prim2SF x) as [[|]|[|]| |[|] m e].
Qed.

Lemma is_finite_shape (x : float) : is_finite x = is_finite_sf (Prim2SF x).
Proof.
  unfold is_finite, is_nan, is_infinity.
  rewrite !eqb_spec, abs_spec, Prim2SF_infinity.
  destruct (Prim2SF x) as [[|]|[|]| |s m e]; try reflexivity.
  unfold SFeqb. rewrite SFcompare_refl. now destruct s.
Qed.

(** Dividing by a zero gives an infinity or NaN, whatever the dividend. *)
Lemma div_by_zero_not_finite (x y : float) :
  (y =? 0) = true -> is_finite (x / y) = false.
Proof.
  rewrite eqb_zero_shape, is_finite_shape, div_spec.
  destruct (Prim2SF y); try discriminate.
  now destruct (Prim2SF x).
Qed.

Lemma div_by_nan (x : float) : x / nan = nan.
Proof.
  apply Prim2SF_inj. rewrite div_spec, Prim2SF_nan.
  now destruct (Prim2SF x).
Qed.

Lemma sub_self_zero (p : float) :
  is_finite p = true -> Prim2SF (p - p) = S754_zero false.
Proof.
  rewrite is_finite_shape, sub_spec.
  destruct (Prim2SF p) as [[|]| | |s m e]; try discriminate; try reflexivity.
  intros _. unfold SF64sub, SFsub. now rewrite Z.sub_diag.
Qed.

Lemma zero_mul_finite (z q : float) :
  is_zero_sf (Prim2SF z) = true -> is_finite q = true ->
  is_zero_sf (Prim2SF (z * q)) = true.
Proof.
  rewrite is_finite_shape, mul_spec.
  now destruct (Prim2SF z), (Prim2SF q).
Qed.

Lemma zero_add_zero (z : float) :
  is_zero_sf (Prim2SF z) = true -> 0 + z = 0.
Proof.
  intros H. apply Prim2SF_inj. rewrite add_spec, Prim2SF_zero.
  now destruct (Prim2SF z) as [[|]| | |].
Qed.

Lemma compare_cont_flip (m m' : positive) :
  Pos.compare_cont Eq m' m = CompOpp (Pos.compare_cont Eq m m').
Proof. symmetry. apply (Pos.compare_cont_antisym m m' Eq). Qed.

Lemma SFcompare_antisym (x y : spec_float) :
  SFcompare y x = option_map CompOpp (SFcompare x y).
Proof.
  destruct x as [[|]|[|]| |[|] m e], y as [[|]|[|]| |[|] m' e']; try reflexivity; simpl;
    rewrite (Z.compare_antisym e e'); destruct (e ?= e')%Z; simpl; try reflexivity;
    rewrite (compare_cont_flip m m');
    now destruct (Pos.compare_cont Eq m m').
Qed.

(** [<] on floats is asymmetric. *)
Lemma ltb_asym (x y : float) : (x <? y) = true -> (y <? x) = false.
Proof.
  rewrite !ltb_spec. unfold SFltb.
  rewrite (SFcompare_antisym (Prim2SF x) (Prim2SF y)).
  now destruct (SFcompare (Prim2SF x) (Prim2SF y)) as [[| |]|].
Qed.

Lemma opp_finite (q : float) : is_finite (- q) = is_finite q.
Proof. rewrite !is_finite_shape, opp_spec. now destruct (Prim2SF q). Qed.

(** A value that is not finite stays so when scaled by 100. *)
Lemma not_finite_times_100 (x : float) :
  is_finite x = false -> is_finite (x * 100) = false.
Proof.
  rewrite !is_finite_shape, mul_spec.
  replace (Prim2SF 100) with (S754_finite false 7036874417766400 (-46)) by reflexivity.
  now destruct (Prim2SF x).
Qed.

End FloatFacts.

(** ** Lists: sorting and slices *)

Module ListFacts.

Import Py.

Section SortFacts.
Variable A : Type.
Variable before : A -> A -> bool.

Lemma insert_length (x : A) (l : list A) :
  List.length (insert before x l) = S (List.length l).
Proof.
  induction l as [|y l IH]; simpl; [reflexivity|].
  destruct (before y x); simpl; [now rewrite IH | reflexivity].
Qed.

Lemma sort_length (l : list A) : List.length (sort before l) = List.length l.
Proof.
  induction l as [|x l IH]; [reflexivity|].
  change (sort before (x :: l)) with (insert before x (sort before l)).
  now rewrite insert_length, IH.
Qed.

Lemma insert_In (x z : A) (l : list A) :
  In z (insert before x l) <-> z = x \/ In z l.
Proof.
  induction l as [|y l IH]; simpl.
  - intuition.
  - destruct (before y x); simpl; rewrite ?IH; intuition.
Qed.

Lemma insert_Permutation (x : A) (l : list A) :
  Permutation (insert before x l) (x :: l).
Proof.
  induction l as [|y l IH]; simpl; [reflexivity|].
  destruct (before y x); [|reflexivity].
  rewrite IH. apply perm_swap.
Qed.

(** Sorting keeps every entry, as often as it occurs. *)
Lemma sort_Permutation (l : list A) : Permutation (sort before l) l.
Proof.
  induction l as [|x l IH]; [reflexivity|].
  change (sort before (x :: l)) with (insert before x (sort before l)).
  now rewrite insert_Permutation, IH.
Qed.

Lemma sort_In (z : A) (l : list A) : In z (sort before l) <-> In z l.
Proof.
  induction l as [|x l IH]; [simpl; tauto|].
  change (sort before (x :: l)) with (insert before x (sort before l)).
  rewrite insert_In, IH. simpl. intuition.
Qed.

Lemma precedes_cons (z y x : A) (l : list A) :
  Ranking.precedes y x l -> Ranking.precedes y x (z :: l).
Proof.
  intros (l1 & l2 & l3 & E). exists (z :: l1), l2, l3. now rewrite E.
Qed.

Lemma precedes_head (z x : A) (l : list A) :
  In x l -> Ranking.precedes z x (z :: l).
Proof.
  intros H. apply in_split in H. destruct H as (l2 & l3 & E).
  exists [], l2, l3. now rewrite E.
Qed.

Lemma precedes_cons_inv (z y x : A) (l : list A) :
  Ranking.precedes y x (z :: l) -> (y = z /\ In x l) \/ Ranking.precedes y x l.
Proof.
  intros ([|z' l1] & l2 & l3 & E); simpl in E; inversion E; subst.
  - left. split; [reflexivity|]. apply in_or_app. right. now left.
  - right. now exists l1, l2, l3.
Qed.

(** Inserting [a] puts it before entries of [s] only, and after an entry only
    if that entry has to come before it. *)
Lemma insert_precedes (a y x : A) (s : list A) :
  Ranking.precedes y x (insert before a s) ->
  (y = a /\ In x s) \/ Ranking.precedes y x s \/ (x = a /\ before y a = true).
Proof.
  induction s as [|z s IH]; simpl.
  - intros ([|? [|? ?]] & l2 & l3 & E); simpl in E; inversion E.
    destruct l2; discriminate.
  - destruct (before z a) eqn:B; intros H; apply precedes_cons_inv in H.
    + destruct H as [[-> H]|H].
      * apply insert_In in H. destruct H as [->|H]; [now right; right|].
        right; left. now apply precedes_head.
      * destruct (IH H) as [[-> Hx]|[Hp|Hb]].
        -- left. split; [reflexivity | now right].
        -- right; left. now apply precedes_cons.
        -- now right; right.
    + destruct H as [[-> H]|H]; [now left | now right; left].
Qed.

(** Stability: an entry comes before another in the sorted list only if it
    came before it in the input or has to come before it. *)
Lemma sort_stable (y x : A) (l : list A) :
  Ranking.precedes y x (sort before l) ->
  Ranking.precedes y x l \/ before y x = true.
Proof.
  induction l as [|a l IH].
  - intros ([|? ?] & l2 & l3 & E); discriminate.
  - change (sort before (a :: l)) with (insert before a (sort before l)).
    intros H. apply insert_precedes in H. destruct H as [[-> Hx]|[Hp|[-> Hb]]].
    + left. apply precedes_head. exact (proj1 (sort_In x l) Hx).
    + destruct (IH Hp) as [Hl|Hb]; [left; now apply precedes_cons | now right].
    + now right.
Qed.

(** When [before] is asymmetric, no entry of the sorted list is directly
    followed by one that has to come before it. *)
Lemma insert_Sorted (a : A) (s : list A) :
  (forall u v, before u v = true -> before v u = false) ->
  Sorted (fun u v => before v u = false) s ->
  Sorted (fun u v => before v u = false) (insert before a s).
Proof.
  intros asym. induction s as [|z s IH]; intros Hs; simpl.
  - repeat constructor.
  - destruct (before z a) eqn:B.
    + inversion Hs as [|? ? Hs' Hd]; subst. constructor; [now apply IH|].
      destruct s as [|z' s]; simpl.
      * constructor. now apply asym.
      * destruct (before z' a); constructor; [now inversion Hd | now apply asym].
    + constructor; [exact Hs | now constructor].
Qed.

Lemma sort_Sorted (l : list A) :
  (forall u v, before u v = true -> before v u = false) ->
  Sorted (fun u v => before v u = false) (sort before l).
Proof.
  intros asym. induction l as [|a l IH]; [constructor|].
  change (sort before (a :: l)) with (insert before a (sort before l)).
  now apply insert_Sorted.
Qed.
End SortFacts.

Section SliceFacts.
Variable A : Type.

Lemma slice_first_length (n : nat) (l : list A) :
  List.length (slice_first n l) = Nat.min n (List.length l).
Proof. apply length_firstn. Qed.

Lemma slice_last_length (n : nat) (l : list A) :
  List.length (slice_last n l) = Nat.min n (List.length l).
Proof. unfold slice_last. rewrite length_skipn. lia. Qed.

(** The entry of rank [i] is the [i]-th of the first [n]. *)
Lemma slice_first_nth (n i : nat) (l : list A) :
  i < n -> nth_error (slice_first n l) i = nth_error l i.
Proof.
  intros H. unfold slice_first. rewrite nth_error_firstn.
  apply Nat.ltb_lt in H. now rewrite H.
Qed.

(** The [j]-th of the last [n] is the entry of rank [length l - n + j]. *)
Lemma slice_last_nth (n j : nat) (l : list A) :
  nth_error (slice_last n l) j = nth_error l (List.length l - n + j).
Proof. unfold slice_last. apply nth_error_skipn. Qed.

(** Both slices hold entries of the list only. *)
Lemma slice_first_In (n : nat) (l : list A) (x : A) :
  In x (slice_first n l) -> In x l.
Proof.
  intros H. rewrite <- (firstn_skipn n l). apply in_or_app. now left.
Qed.

Lemma slice_last_In (n : nat) (l : list A) (x : A) :
  In x (slice_last n l) -> In x l.
Proof.
  intros H. rewrite <- (firstn_skipn (List.length l - n) l). apply in_or_app. now right.
Qed.

(** With fewer than [2 * n] entries the two slices share an entry. *)
Lemma slices_overlap (n : nat) (l : list A) :
  0 < n -> 0 < List.length l < 2 * n ->
  exists i j m,
    nth_error (slice_first n l) i = Some m /\
    nth_error (slice_last n l) j = Some m /\
    nth_error l i = Some m.
Proof.
  intros Hn Hl.
  set (i := List.length l - n).
  assert (Hi : i < List.length l) by (unfold i; lia).
  destruct (nth_error l i) as [m|] eqn:E.
  - exists i, 0, m. repeat split; trivial.
    + rewrite slice_first_nth; [exact E | unfold i; lia].
    + rewrite slice_last_nth. fold i. now rewrite Nat.add_0_r.
  - apply nth_error_None in E. lia.
Qed.

(** A list of at most [n] entries is both its first [n] and its last [n]. *)
Lemma slices_of_short_list (n : nat) (l : list A) :
  List.length l <= n -> slice_first n l = l /\ slice_last n l = l.
Proof.
  intros H. unfold slice_first, slice_last. split.
  - now apply firstn_all2.
  - replace (List.length l - n) with 0 by lia. reflexivity.
Qed.
End SliceFacts.

End ListFacts.

(** ** Mover ranking *)

Import Num Py.
Local Open Scope string_scope.
Local Open Scope list_scope.
Local Open Scope float_scope.

(** Every record of the ranking of [backtest.py] is computed from the open
    and the close of one row, the row of the ranked date. *)
Lemma movers_at_row (historical_data : Backtest.HistoricalData) (d : Backtest.date)
    (s : string) (change : float) :
  In (s, change) (Backtest.movers_at historical_data d) ->
  exists df row,
    In (s, df) historical_data /\ Backtest.loc df d = Some row
    /\ change = Backtest.calculate_percentage_change (Backtest.close row) (Backtest.open row).
Proof.
  induction historical_data as [|[s' df'] rest IH]; simpl; [tauto|].
  destruct (Backtest.loc df' d) as [row|] eqn:E.
  - intros [H|H].
    + inversion H; subst. exists df', row. auto.
    + destruct (IH H) as (df & row' & ? & ? & ?). exists df, row'. auto.
  - intros H. destruct (IH H) as (df & row' & ? & ? & ?). exists df, row'. auto.
Qed.

(** A symbol with a row at the date is ranked, also at the first date of its
    series. *)
Lemma movers_at_complete (historical_data : Backtest.HistoricalData) (d : Backtest.date)
    (s : string) (df : Backtest.DataFrame) (row : Backtest.Bar) :
  In (s, df) historical_data -> Backtest.loc df d = Some row ->
  In (s, Backtest.calculate_percentage_change (Backtest.close row) (Backtest.open row))
     (Backtest.movers_at historical_data d).
Proof.
  induction historical_data as [|[s' df'] rest IH]; simpl; [tauto|].
  intros [H|H] L.
  - inversion H; subst. rewrite L. now left.
  - destruct (Backtest.loc df' d); [right|]; auto.
Qed.

(** The same holds for the records that reach top and bottom. *)
Lemma ranked_records_row (historical_data : Backtest.HistoricalData) (d : Backtest.date)
    (s : string) (change : float) :
  In (s, change) (fst (Backtest.get_top_and_bottom_movers historical_data d))
  \/ In (s, change) (snd (Backtest.get_top_and_bottom_movers historical_data d)) ->
  exists df row,
    In (s, df) historical_data /\ Backtest.loc df d = Some row
    /\ change = Backtest.calculate_percentage_change (Backtest.close row) (Backtest.open row).
Proof.
  intros H. apply movers_at_row.
  apply (ListFacts.sort_In (fun y x => snd x <? snd y)).
  unfold Backtest.get_top_and_bottom_movers in H.
  cbn [fst snd] in H. destruct H as [H|H].
  - eapply ListFacts.slice_first_In, H.
  - eapply ListFacts.slice_last_In, H.
Qed.

(** The ranking keeps the order of ties. *)
Lemma ranking_is_stable :
  Backtest.sort_movers [("A", 5); ("B", 5); ("C", 3)] = [("A", 5); ("B", 5); ("C", 3)]
  /\ Backtest.sort_movers [("C", 3); ("A", 5); ("D", 7); ("B", 5)]
     = [("D", 7); ("A", 5); ("B", 5); ("C", 3)].
Proof. split; reflexivity. Qed.

(** C1. The claim has the percent change of a record be
    [(today_open - previous_close) / previous_close * 100] with
    [previous_close] the close of the entry before the date.  The ranking of
    [backtest.py] reads both prices from the row of the date itself: with
    open 10, close 12 on the first date and open 12, close 11 on the second,
    the record of the second date is computed from close 11, not from the
    previous close 12 (which would give 0), and the first date, which has no
    previous entry, yields a record as well. *)
Theorem movers_read_close_of_same_date :
  Backtest.get_top_and_bottom_movers Samples.two_day_store 2 =
    ([("A", Backtest.calculate_percentage_change 11 12)],
     [("A", Backtest.calculate_percentage_change 11 12)])
  /\ (Backtest.calculate_percentage_change 11 12
      =? Backtest.calculate_percentage_change 12 12) = false
  /\ Backtest.calculate_percentage_change 12 12 = 0
  /\ Backtest.get_top_and_bottom_movers Samples.two_day_store 1 =
       ([("A", Backtest.calculate_percentage_change 12 10)],
        [("A", Backtest.calculate_percentage_change 12 10)]).
Proof. repeat split; vm_compute; reflexivity. Qed.

(** The guard of [trading_opportunities.py]: a zero previous close gives 0. *)
Lemma live_change_at_zero (previous_close today_open : float) :
  (previous_close =? 0) = true ->
  TradingOpportunities.calculate_percentage_change previous_close today_open = 0.
Proof.
  intros H. unfold TradingOpportunities.calculate_percentage_change. now rewrite H.
Qed.

(** Without the guard the result is never a finite number. *)
Lemma backtest_change_at_zero (previous_close today_open : float) :
  (previous_close =? 0) = true ->
  is_finite (Backtest.calculate_percentage_change previous_close today_open) = false.
Proof.
  intros H. unfold Backtest.calculate_percentage_change.
  apply FloatFacts.not_finite_times_100.
  now apply FloatFacts.div_by_zero_not_finite.
Qed.

(** C2. The claim has the percentage change be 0 whenever the previous close
    is 0.  [calculate_percentage_change] of [trading_opportunities.py] does
    that; the one of [backtest.py], which the ranking of the backtest calls,
    has no such guard: it gives an infinity for a non-zero open and NaN for a
    zero open, and the ranking goes on with that value. *)
Theorem zero_previous_close_in_backtest :
  Backtest.calculate_percentage_change 0 5 = infinity
  /\ Backtest.calculate_percentage_change 0 0 = nan
  /\ TradingOpportunities.calculate_percentage_change 0 5 = 0
  /\ Backtest.get_top_and_bottom_movers Samples.zero_close_store 1 =
       ([("A", infinity)], [("A", infinity)]).
Proof. repeat split; vm_compute; reflexivity. Qed.

(** The two slices of any ranked list. *)
Lemma end_slices_of_ranked (A : Type) (ranked : list A) :
  Ranking.end_slices ranked (slice_first 10 ranked) (slice_last 10 ranked).
Proof.
  unfold Ranking.end_slices. repeat split.
  - intros i Hi. now apply ListFacts.slice_first_nth.
  - apply ListFacts.slice_first_length.
  - intros j. apply ListFacts.slice_last_nth.
  - apply ListFacts.slice_last_length.
  - intros H. destruct (@ListFacts.slices_overlap A 10 ranked) as (i & j & m & ? & ? & ?);
      [lia | lia |]. exists i, j, m. auto.
  - now apply ListFacts.slices_of_short_list.
  - now apply ListFacts.slices_of_short_list.
Qed.

(** C10. Of the ranked list, top is the first 10 entries and bottom the last
    10, or the whole list when it has fewer; with fewer than 20 entries some
    entry stands in both, and nothing removes it.  This holds for the ranking
    of [backtest.py] and for the one of [trading_opportunities.py]. *)
Theorem top_and_bottom_are_end_slices
    (historical_data : Backtest.HistoricalData) (d : Backtest.date)
    (symbols : list string) (api : string -> TradingOpportunities.Response) :
  Ranking.end_slices
    (Backtest.sort_movers (Backtest.movers_at historical_data d))
    (fst (Backtest.get_top_and_bottom_movers historical_data d))
    (snd (Backtest.get_top_and_bottom_movers historical_data d))
  /\ Ranking.end_slices
       (sort (fun y x => snd x <? snd y) (TradingOpportunities.movers_of symbols api))
       (fst (TradingOpportunities.get_top_and_bottom_movers symbols api))
       (snd (TradingOpportunities.get_top_and_bottom_movers symbols api)).
Proof. split; apply end_slices_of_ranked. Qed.

(** The single symbol of the two-day store is ranked into both top and
    bottom on the second date. *)
Lemma single_symbol_in_top_and_bottom :
  let ranked := Backtest.sort_movers (Backtest.movers_at Samples.two_day_store 2) in
  List.length ranked = 1%nat
  /\ fst (Backtest.get_top_and_bottom_movers Samples.two_day_store 2) = ranked
  /\ snd (Backtest.get_top_and_bottom_movers Samples.two_day_store 2) = ranked.
Proof.
  intros ranked. split; [reflexivity|].
  destruct (top_and_bottom_are_end_slices Samples.two_day_store 2%Z [] (fun _ => None))
    as [(_ & _ & _ & _ & _ & H) _].
  apply H. vm_compute. lia.
Defined.

(** ** Opening and closing positions *)

Lemma place_trades_spec (portfolio : list Backtest.Trade) (movers : list (string * float))
    (allocation : float) (prices : dict float) (trade_type : string) :
  Backtest.place_trades portfolio movers allocation prices trade_type
  = portfolio ++ flat_map (Day.opened allocation prices trade_type) movers.
Proof.
  revert portfolio.
  induction movers as [|[s ch] rest IH]; intros portfolio; simpl.
  - now rewrite app_nil_r.
  - unfold Day.opened at 1. simpl.
    destruct (get s prices) as [p|]; rewrite IH; [|reflexivity].
    now rewrite <- app_assoc.
Qed.

(** A position is opened only for a symbol that has a price. *)
Lemma placed_trades_are_priced (movers : list (string * float)) (allocation : float)
    (prices : dict float) (trade_type : string) (position : Backtest.Trade) :
  In position (Backtest.place_trades [] movers allocation prices trade_type) ->
  exists p, get (Backtest.symbol position) prices = Some p
            /\ Backtest.price position = p
            /\ (Backtest.quantity position = floor_divide allocation p
                \/ Backtest.quantity position = - floor_divide allocation p).
Proof.
  rewrite place_trades_spec. simpl. rewrite in_flat_map.
  intros ([s ch] & _ & H). unfold Day.opened in H. simpl in H.
  destruct (get s prices) as [p|] eqn:E; [|contradiction].
  destruct H as [H|[]]. subst position. simpl. exists p.
  destruct (String.eqb trade_type "buy"); auto.
Qed.

Lemma close_positions_spec (portfolio : list Backtest.Trade) (prices : dict float)
    (pnl : float) (closing_trades : list Backtest.Trade) :
  Backtest.close_positions portfolio prices pnl closing_trades
  = (fold_left (fun acc position => acc + Day.pnl_contribution prices position) portfolio pnl,
     closing_trades ++ map (Day.closing_trade prices) portfolio).
Proof.
  revert pnl closing_trades.
  induction portfolio as [|position rest IH]; intros pnl closing_trades; simpl.
  - now rewrite app_nil_r.
  - rewrite IH. f_equal. now rewrite <- app_assoc.
Qed.

(** The open prices and the close prices of a date have the same keys. *)
Lemma prices_at_same_keys (column column' : Backtest.Bar -> float)
    (historical_data : Backtest.HistoricalData) (d : Backtest.date) (s : string) :
  get s (Backtest.prices_at column historical_data d) = None <->
  get s (Backtest.prices_at column' historical_data d) = None.
Proof.
  induction historical_data as [|[s' df] rest IH]; simpl; [tauto|].
  destruct (Backtest.loc df d); simpl; [|exact IH].
  destruct (String.eqb s s'); [|exact IH].
  split; discriminate.
Qed.

(** In [backtest], a position opened on a date has a close price on it. *)
Lemma day_positions_have_close (historical_data : Backtest.HistoricalData)
    (d : Backtest.date) (movers : list (string * float)) (allocation : float)
    (trade_type : string) (position : Backtest.Trade) :
  In position
     (Backtest.place_trades [] movers allocation
        (Backtest.prices_at Backtest.open historical_data d) trade_type) ->
  get (Backtest.symbol position) (Backtest.prices_at Backtest.close historical_data d)
  <> None.
Proof.
  intros H. apply placed_trades_are_priced in H. destruct H as (p & E & _).
  intros C. apply (prices_at_same_keys Backtest.close Backtest.open) in C. congruence.
Qed.

(** [execute_strategy] of [alpaca_live_trading.py] places no order for a
    symbol whose share count is not positive. *)
Lemma place_orders_positive (movers : list (string * float)) (allocation : float)
    (latest_close : string -> option float) (side : string) :
  Forall (fun order => (0 < AlpacaLiveTrading.qty order)%Z)
         (AlpacaLiveTrading.place_orders movers allocation latest_close side).
Proof.
  induction movers as [|[s ch] rest IH]; simpl; [constructor|].
  destruct (latest_close s) as [p|]; [|exact IH].
  destruct (AlpacaLiveTrading.shares_for allocation p) as [n|]; [|exact IH].
  destruct (0 <? n)%Z eqn:E; [|exact IH].
  constructor; [|exact IH]. simpl. now apply Z.ltb_lt.
Qed.

Lemma execute_strategy_positive (top_movers bottom_movers : list (string * float))
    (allocation : float) (latest_close : string -> option float) :
  Forall (fun order => (0 < AlpacaLiveTrading.qty order)%Z)
         (AlpacaLiveTrading.execute_strategy top_movers bottom_movers allocation latest_close).
Proof.
  unfold AlpacaLiveTrading.execute_strategy. apply Forall_app.
  split; apply place_orders_positive.
Qed.

(** C4. The claim has the quantity be the floored quotient of the allocation
    by the open price and has no trade of quantity 0 ever recorded.
    [place_trades] computes the quantity so, but records the trade whatever
    the quantity is: with an allocation of 50 and a price of 100 a [buy] of
    quantity 0 enters the portfolio, and a run on a 1000 dollar account writes
    four rows of quantity zero to the trade log.  [execute_strategy] has the
    test [shares > 0] that is missing here. *)
Theorem zero_quantity_trade_is_recorded :
  Backtest.place_trades [] [("A", 1)] 50 [("A", 100)] "buy"
    = [Backtest.mkTrade "A" (floor_divide 50 100) 100 "buy"]
  /\ floor_divide 50 100 = 0
  /\ Backtest.backtest Samples.expensive_store 1000 1 None
     = Ok (Backtest.mkState [0] 1000
             (Some [Backtest.Header;
                    Backtest.Row 1 "A" 0 100 "buy";
                    Backtest.Row 1 "A" (-0) 100 "sell";
                    Backtest.Row 1 "A" (-0) 100 "close";
                    Backtest.Row 1 "A" 0 100 "close"]))
  /\ AlpacaLiveTrading.execute_strategy [("A", 1)] [] 50 (fun _ => Some 100) = [].
Proof. repeat split; vm_compute; reflexivity. Qed.

(** C5, against the claim as stated: the claim has a missing close price
    treated as absent, never replaced by zero.  [close_positions_and_log]
    reads the close price with [prices.get(symbol, 0)]: a long position of 10
    shares entered at 100, whose symbol has no close price, is closed at
    price 0, books a loss of 1000 and logs a [close] record at price 0.
    [place_trades] skips a symbol without a price. *)
Lemma missing_close_price_is_zero :
  Backtest.close_positions_and_log [Backtest.mkTrade "A" 10 100 "buy"] [] 1 None
    = (-1000, Some [Backtest.Header; Backtest.Row 1 "A" (-10) 0 "close"])
  /\ Backtest.place_trades [] [("A", 1)] 5000 [] "buy" = [].
Proof. split; vm_compute; reflexivity. Qed.

(** A position closed at its entry price contributes a zero. *)
Lemma flat_position_contribution (prices : dict float) (position : Backtest.Trade) :
  get (Backtest.symbol position) prices = Some (Backtest.price position) ->
  is_finite (Backtest.price position) = true ->
  is_finite (Backtest.quantity position) = true ->
  is_zero_sf (Prim2SF (Day.pnl_contribution prices position)) = true.
Proof.
  intros E Hp Hq. unfold Day.pnl_contribution, Day.close_price. rewrite E.
  apply FloatFacts.zero_mul_finite; [|exact Hq].
  now rewrite FloatFacts.sub_self_zero.
Qed.

Lemma flat_position_pnl (prices : dict float) (position : Backtest.Trade)
    (d : Backtest.date) (file : Backtest.File) :
  get (Backtest.symbol position) prices = Some (Backtest.price position) ->
  is_finite (Backtest.price position) = true ->
  is_finite (Backtest.quantity position) = true ->
  fst (Backtest.close_positions_and_log [position] prices d file) = 0.
Proof.
  intros E Hp Hq.
  unfold Backtest.close_positions_and_log. rewrite close_positions_spec. simpl.
  now apply FloatFacts.zero_add_zero, flat_position_contribution.
Qed.

(** C8, against the claim as stated: a position opened at an open price of
    0 has the quantity [5000 // 0], an infinity, and closed at the same price
    it contributes [(0 - 0) * inf], a NaN, to the realized PnL, as a [buy]
    and as a [sell].  The least positive price gives the same, its quotient
    overflowing. *)
Lemma flat_position_at_zero_price :
  Backtest.place_trades [] [("A", 1)] 5000 [("A", 0)] "buy"
    = [Backtest.mkTrade "A" infinity 0 "buy"]
  /\ Backtest.place_trades [] [("A", 1)] 5000 [("A", 0)] "sell"
     = [Backtest.mkTrade "A" neg_infinity 0 "sell"]
  /\ fst (Backtest.close_positions_and_log
            (Backtest.place_trades [] [("A", 1)] 5000 [("A", 0)] "buy")
            [("A", 0)] 1 None) = nan
  /\ fst (Backtest.close_positions_and_log
            (Backtest.place_trades [] [("A", 1)] 5000 [("A", 0)] "sell")
            [("A", 0)] 1 None) = nan
  /\ fst (Backtest.close_positions_and_log
            (Backtest.place_trades [] [("A", 1)] 5000 [("A", 0x1p-1074)] "buy")
            [("A", 0x1p-1074)] 1 None) = nan.
Proof. repeat split; vm_compute; reflexivity. Qed.

(** C8, amended.  The realized PnL of a day is the sum, taken in portfolio
    order from 0, of [(close_price - entry_price) * quantity] over the
    positions, the quantity carrying the sign.  A position whose entry price
    and quantity are finite numbers and whose close price is its entry price
    contributes a zero, whatever its trade type and the sign of its quantity,
    and alone it gives a realized PnL of 0; so does the position that
    [place_trades] opens, as a [buy] or as a [sell], when it is closed at the
    prices it was opened at and its price and quantity are finite. *)
Theorem realized_pnl_is_sum_of_contributions
    (portfolio : list Backtest.Trade) (prices : dict float) (d : Backtest.date)
    (file : Backtest.File) (position : Backtest.Trade) :
  fst (Backtest.close_positions_and_log portfolio prices d file)
    = fold_left (fun pnl p => pnl + Day.pnl_contribution prices p) portfolio 0
  /\ (forall close_price, get (Backtest.symbol position) prices = Some close_price ->
        Day.pnl_contribution prices position
        = (close_price - Backtest.price position) * Backtest.quantity position)
  /\ (get (Backtest.symbol position) prices = Some (Backtest.price position) ->
      is_finite (Backtest.price position) = true ->
      is_finite (Backtest.quantity position) = true ->
      (Day.pnl_contribution prices position =? 0) = true
      /\ fst (Backtest.close_positions_and_log [position] prices d file) = 0)
  /\ (forall allocation trade_type s change p,
        get s prices = Some p ->
        is_finite p = true ->
        is_finite (floor_divide allocation p) = true ->
        fst (Backtest.close_positions_and_log
               (Backtest.place_trades [] [(s, change)] allocation prices trade_type)
               prices d file) = 0).
Proof.
  split; [|split; [|split]].
  - unfold Backtest.close_positions_and_log. now rewrite close_positions_spec.
  - intros c E. unfold Day.pnl_contribution, Day.close_price. now rewrite E.
  - intros E Hp Hq. split.
    + rewrite FloatFacts.eqb_zero_shape. now apply flat_position_contribution.
    + now apply flat_position_pnl.
  - intros allocation trade_type s change p E Hp Hq.
    cbn [Backtest.place_trades]. rewrite E. cbn [app].
    apply flat_position_pnl; cbn [Backtest.symbol Backtest.price Backtest.quantity];
      trivial.
    destruct (String.eqb trade_type "buy"); [exact Hq|].
    now rewrite FloatFacts.opp_finite.
Qed.

(** A short position of 50 shares, opened by [place_trades] at 100 and closed
    at 100. *)
Lemma realized_pnl_of_flat_short :
  Backtest.place_trades [] [("A", 1)] 5000 [("A", 100)] "sell"
    = [Backtest.mkTrade "A" (-50) 100 "sell"]
  /\ (Day.pnl_contribution [("A", 100)] (Backtest.mkTrade "A" (-50) 100 "sell") =? 0) = true
  /\ fst (Backtest.close_positions_and_log
            (Backtest.place_trades [] [("A", 1)] 5000 [("A", 100)] "sell")
            [("A", 100)] 1 None) = 0.
Proof.
  split; [vm_compute; reflexivity|].
  destruct (realized_pnl_is_sum_of_contributions [] [("A", 100)] 1%Z None
              (Backtest.mkTrade "A" (-50) 100 "sell")) as (_ & _ & Hflat & Hround).
  split.
  - apply Hflat; reflexivity.
  - apply (Hround 5000 "sell" "A" 1 100); reflexivity.
Defined.

(** ** The loop of [backtest] *)

#[local] Arguments Backtest.get_top_and_bottom_movers : simpl never.
#[local] Arguments Backtest.simulate_day : simpl never.
#[local] Arguments Backtest.backtest_day : simpl never.

(** Reduces the loop and the projections of a state, nothing below them. *)
Ltac state_simpl :=
  cbn [fold_left Backtest.pnl_history Backtest.cash_balance Backtest.trade_log_file
       fst snd app].

Lemma backtest_day_eq (historical_data : Backtest.HistoricalData) (allocation_pct : float)
    (st : Backtest.State) (d : Backtest.date) :
  Backtest.backtest_day historical_data allocation_pct st d =
  let movers := Backtest.get_top_and_bottom_movers historical_data d in
  let day :=
    Backtest.simulate_day historical_data d (fst movers) (snd movers)
      (Backtest.cash_balance st * allocation_pct / 20) (Backtest.trade_log_file st) in
  Backtest.mkState (Backtest.pnl_history st ++ [fst day])
                   (Backtest.cash_balance st + fst day) (snd day).
Proof.
  unfold Backtest.backtest_day.
  destruct (Backtest.get_top_and_bottom_movers historical_data d) as [top bottom].
  simpl.
  now destruct (Backtest.simulate_day historical_data d top bottom
                  (Backtest.cash_balance st * allocation_pct / 20)
                  (Backtest.trade_log_file st)).
Qed.

(** Every date appends one entry to the PnL history. *)
Lemma run_history_length (historical_data : Backtest.HistoricalData) (allocation_pct : float)
    (dates : list Backtest.date) (st : Backtest.State) :
  List.length (Backtest.pnl_history
                 (fold_left (Backtest.backtest_day historical_data allocation_pct) dates st))
  = (List.length (Backtest.pnl_history st) + List.length dates)%nat.
Proof.
  revert st. induction dates as [|d dates IH]; intros st; simpl; [lia|].
  rewrite IH, backtest_day_eq. simpl. rewrite length_app. simpl. lia.
Qed.

(** The cash balance is the initial cash plus the PnL of every date so far,
    added in order. *)
Lemma run_cash_balance (historical_data : Backtest.HistoricalData) (allocation_pct : float)
    (dates : list Backtest.date) (st : Backtest.State) :
  let st' := fold_left (Backtest.backtest_day historical_data allocation_pct) dates st in
  exists pnls,
    Backtest.pnl_history st' = Backtest.pnl_history st ++ pnls
    /\ Backtest.cash_balance st' = fold_left add pnls (Backtest.cash_balance st).
Proof.
  revert st. induction dates as [|d dates IH]; intros st; simpl.
  - exists []. now rewrite app_nil_r.
  - destruct (IH (Backtest.backtest_day historical_data allocation_pct st d))
      as (pnls & H1 & H2).
    rewrite H1, H2, backtest_day_eq. simpl.
    eexists (_ :: pnls). rewrite <- app_assoc. simpl. split; reflexivity.
Qed.

Lemma log_keeps_header (d : Backtest.date) (trades : list Backtest.Trade)
    (file : Backtest.File) :
  (file = None \/ exists rows, file = Some (Backtest.Header :: rows)) ->
  exists rows, Backtest.log_trades_to_csv d trades file = Some (Backtest.Header :: rows).
Proof.
  intros [H|(rows & H)]; subst file; simpl; eauto.
Qed.

Lemma simulate_day_log (historical_data : Backtest.HistoricalData) (d : Backtest.date)
    (top bottom : list (string * float)) (allocation : float) (file : Backtest.File) :
  (file = None \/ exists rows, file = Some (Backtest.Header :: rows)) ->
  exists rows,
    snd (Backtest.simulate_day historical_data d top bottom allocation file)
    = Some (Backtest.Header :: rows).
Proof.
  intros H. unfold Backtest.simulate_day, Backtest.close_positions_and_log.
  rewrite close_positions_spec. simpl.
  apply log_keeps_header. right. now apply log_keeps_header.
Qed.

Lemma run_log (historical_data : Backtest.HistoricalData) (allocation_pct : float)
    (dates : list Backtest.date) (st : Backtest.State) :
  dates <> [] ->
  (Backtest.trade_log_file st = None
   \/ exists rows, Backtest.trade_log_file st = Some (Backtest.Header :: rows)) ->
  exists rows,
    Backtest.trade_log_file
      (fold_left (Backtest.backtest_day historical_data allocation_pct) dates st)
    = Some (Backtest.Header :: rows).
Proof.
  revert st. induction dates as [|d dates IH]; intros st Hd Hf; [congruence|].
  simpl.
  assert (H : exists rows,
             Backtest.trade_log_file (Backtest.backtest_day historical_data allocation_pct st d)
             = Some (Backtest.Header :: rows)).
  { rewrite backtest_day_eq. simpl. now apply simulate_day_log. }
  destruct dates as [|d' dates]; [exact H|].
  apply IH; [discriminate | now right].
Qed.

(** Symbols without a row at the date do not count on that date. *)
Lemma movers_at_present (historical_data : Backtest.HistoricalData) (d : Backtest.date) :
  Backtest.movers_at (Day.present_at d historical_data) d
  = Backtest.movers_at historical_data d.
Proof.
  induction historical_data as [|[s df] rest IH]; simpl; [reflexivity|].
  destruct (Backtest.loc df d) eqn:E; simpl; rewrite ?E, IH; reflexivity.
Qed.

Lemma prices_at_present (column : Backtest.Bar -> float)
    (historical_data : Backtest.HistoricalData) (d : Backtest.date) :
  Backtest.prices_at column (Day.present_at d historical_data) d
  = Backtest.prices_at column historical_data d.
Proof.
  induction historical_data as [|[s df] rest IH]; simpl; [reflexivity|].
  destruct (Backtest.loc df d) eqn:E; simpl; rewrite ?E, IH; reflexivity.
Qed.

Lemma backtest_day_present (historical_data : Backtest.HistoricalData)
    (allocation_pct : float) (st : Backtest.State) (d : Backtest.date) :
  Backtest.backtest_day (Day.present_at d historical_data) allocation_pct st d
  = Backtest.backtest_day historical_data allocation_pct st d.
Proof.
  unfold Backtest.backtest_day, Backtest.get_top_and_bottom_movers, Backtest.simulate_day.
  now rewrite movers_at_present, !prices_at_present.
Qed.

(** A date at which no symbol has a row leaves nothing to trade. *)
Lemma day_without_movers (historical_data : Backtest.HistoricalData) (allocation_pct : float)
    (st : Backtest.State) (d : Backtest.date) :
  Backtest.movers_at historical_data d = [] ->
  Backtest.backtest_day historical_data allocation_pct st d
  = Backtest.mkState (Backtest.pnl_history st ++ [0]) (Backtest.cash_balance st + 0)
      (match Backtest.trade_log_file st with
       | None => Some [Backtest.Header]
       | Some rows => Some rows
       end).
Proof.
  intros H. unfold Backtest.backtest_day, Backtest.get_top_and_bottom_movers.
  rewrite H. simpl.
  destruct (Backtest.trade_log_file st) as [rows|]; simpl; [|reflexivity].
  now rewrite !app_nil_r.
Qed.

(** C3, against the claim as stated: a store without symbols makes
    [backtest] raise IndexError when it looks for the first symbol. *)
Lemma backtest_of_empty_store :
  Backtest.backtest [] 100000 1 None = Raise IndexError.
Proof. reflexivity. Qed.

(** C3, amended.  For every store with at least one symbol, whatever its
    bars, and every cash and allocation fraction, [backtest] completes: it
    returns a PnL history with one entry per date of the first symbol's
    series and, when there is a date, a trade log that starts with the
    header.  On a date the symbols without a row at that date are skipped:
    the iteration gives what it gives for the store without them, and it adds
    a PnL of 0 and no trade row when no symbol has a row. *)
Theorem backtest_completes_on_nonempty_store
    (symbol : string) (df : Backtest.DataFrame) (rest : Backtest.HistoricalData)
    (cash allocation_pct : float) (file : Backtest.File) :
  let historical_data := (symbol, df) :: rest in
  exists st,
    Backtest.backtest historical_data cash allocation_pct file = Ok st
    /\ List.length (Backtest.pnl_history st) = List.length (Backtest.index df)
    /\ (df <> [] -> exists rows, Backtest.trade_log_file st = Some (Backtest.Header :: rows))
    /\ (forall st' d,
          Backtest.backtest_day historical_data allocation_pct st' d
          = Backtest.backtest_day (Day.present_at d historical_data) allocation_pct st' d)
    /\ (forall st' d,
          Day.present_at d historical_data = [] ->
          Backtest.backtest_day historical_data allocation_pct st' d
          = Backtest.mkState (Backtest.pnl_history st' ++ [0])
              (Backtest.cash_balance st' + 0)
              (match Backtest.trade_log_file st' with
               | None => Some [Backtest.Header]
               | Some rows => Some rows
               end)).
Proof.
  intros historical_data. eexists. split; [reflexivity|]. split; [|split; [|split]].
  - rewrite run_history_length. unfold Backtest.sorted_dates.
    now rewrite ListFacts.sort_length.
  - intros Hdf. apply run_log; [|now left].
    intros E. apply (f_equal (@List.length _)) in E.
    unfold Backtest.sorted_dates in E. rewrite ListFacts.sort_length in E.
    unfold Backtest.index in E. rewrite length_map in E.
    destruct df; [congruence | discriminate].
  - intros st' d. symmetry. apply backtest_day_present.
  - intros st' d E. apply day_without_movers.
    now rewrite <- movers_at_present, E.
Qed.

(** A store in which [B] has no row at date 2: on that date the iteration is
    the one for [A] alone, and at date 3, where nothing has a row, the PnL
    is 0. *)
Lemma backtest_skips_missing_rows :
  let store :=
    [("A", [(1%Z, Samples.bar 10 12); (2%Z, Samples.bar 12 11)]);
     ("B", [(1%Z, Samples.bar 20 21)])] in
  let st := Backtest.mkState [] 1000 None in
  Backtest.backtest_day store 1 st 2 = Backtest.backtest_day Samples.two_day_store 1 st 2
  /\ Backtest.backtest_day store 1 st 3 = Backtest.mkState [0] (1000 + 0) (Some [Backtest.Header]).
Proof.
  intros store st.
  destruct (backtest_completes_on_nonempty_store
              "A" [(1%Z, Samples.bar 10 12); (2%Z, Samples.bar 12 11)]
              [("B", [(1%Z, Samples.bar 20 21)])] 1000 1 None)
    as (st1 & _ & _ & _ & Hskip & Hnone).
  split.
  - exact (Hskip st 2%Z).
  - exact (Hnone st 3%Z eq_refl).
Defined.

(** C9. On every date of a run, the allocation is computed from the current
    cash balance, which is the initial cash plus the PnL of each earlier
    date, and not from the initial cash: the run is the loop over the
    earlier dates, then the date traded with
    [(cash + pnl_1 + ... + pnl_k) * allocation_pct / 20], then the loop over
    the later dates.  In a two-day run whose first day yields +500 the second
    day is traded with [(cash + 500) * allocation_pct / 20]. *)
Theorem cash_balance_compounds
    (symbol : string) (df : Backtest.DataFrame) (rest : Backtest.HistoricalData)
    (cash allocation_pct : float) (file : Backtest.File)
    (earlier : list Backtest.date) (d : Backtest.date) (later : list Backtest.date) :
  let historical_data := (symbol, df) :: rest in
  let day := Backtest.backtest_day historical_data allocation_pct in
  let st := fold_left day earlier (Backtest.mkState [] cash None) in
  let current_cash := fold_left add (Backtest.pnl_history st) cash in
  let movers := Backtest.get_top_and_bottom_movers historical_data d in
  let traded :=
    Backtest.simulate_day historical_data d (fst movers) (snd movers)
      (current_cash * allocation_pct / 20) (Backtest.trade_log_file st) in
  Backtest.sorted_dates df = earlier ++ d :: later ->
  List.length (Backtest.pnl_history st) = List.length earlier
  /\ Backtest.cash_balance st = current_cash
  /\ Backtest.backtest historical_data cash allocation_pct file
     = Ok (fold_left day later
             (Backtest.mkState (Backtest.pnl_history st ++ [fst traded])
                               (current_cash + fst traded) (snd traded))).
Proof.
  intros historical_data day st current_cash movers traded Hdates.
  assert (Hcash : Backtest.cash_balance st = current_cash).
  { destruct (run_cash_balance historical_data allocation_pct earlier
                (Backtest.mkState [] cash None)) as (pnls & H1 & H2).
    unfold current_cash, st, day. now rewrite H1, H2. }
  split; [|split].
  - unfold st, day. now rewrite run_history_length.
  - exact Hcash.
  - subst historical_data. unfold Backtest.backtest. rewrite Hdates.
    rewrite fold_left_app. cbn [fold_left]. fold day. fold st.
    unfold day at 2. rewrite backtest_day_eq. cbv zeta.
    fold day. fold st. rewrite Hcash. reflexivity.
Qed.

(** The eleven-symbol store on an account of 100000: the first date yields a
    PnL of 500 and the second date is traded with [(100000 + 500) * 1 / 20]. *)
Lemma cash_balance_compounds_after_500 :
  let movers1 := Backtest.get_top_and_bottom_movers Samples.eleven_store 1 in
  let movers2 := Backtest.get_top_and_bottom_movers Samples.eleven_store 2 in
  let traded1 :=
    Backtest.simulate_day Samples.eleven_store 1 (fst movers1) (snd movers1)
      (100000 * 1 / 20) None in
  let traded2 :=
    Backtest.simulate_day Samples.eleven_store 2 (fst movers2) (snd movers2)
      ((100000 + 500) * 1 / 20) (snd traded1) in
  fst traded1 = 500
  /\ Backtest.backtest Samples.eleven_store 100000 1 None
     = Ok (Backtest.mkState [500; fst traded2] (100000 + 500 + fst traded2) (snd traded2)).
Proof.
  intros movers1 movers2 traded1 traded2.
  split; [vm_compute; reflexivity|].
  destruct (@cash_balance_compounds "S00" (Samples.frame 100 110) (tl Samples.eleven_store)
              100000 1 None [1%Z] 2%Z [] eq_refl) as (_ & _ & H).
  etransitivity; [exact H | vm_compute; reflexivity].
Defined.

(** ** Allocation *)

(** C6, against the claim as stated: with no positions the call raises
    Python's ZeroDivisionError, the error of the division itself. *)
Lemma allocation_for_no_positions :
  AlpacaLiveTrading.calculate_allocation 100000 1 0 = Raise ZeroDivisionError.
Proof. reflexivity. Qed.

(** C6, amended.  [calculate_allocation] reads and writes nothing but its
    arguments.  For a position count of 0 it raises ZeroDivisionError; for a
    position count too large for Python to convert to a float it raises
    OverflowError; for every other position count it returns
    [cash_balance * percentage / num_positions].  An iteration of [backtest]
    trades with the allocation that [calculate_allocation] returns for its
    cash balance and 20 positions, [cash_balance * allocation_pct / 20],
    which is always computed. *)
Theorem allocation_divides_or_raises
    (cash_balance percentage : float) (num_positions : Z)
    (historical_data : Backtest.HistoricalData) (allocation_pct : float)
    (st : Backtest.State) (d : Backtest.date) :
  (num_positions = 0%Z ->
   AlpacaLiveTrading.calculate_allocation cash_balance percentage num_positions
   = Raise ZeroDivisionError)
  /\ (is_infinity (of_Z num_positions) = true ->
      AlpacaLiveTrading.calculate_allocation cash_balance percentage num_positions
      = Raise OverflowError)
  /\ (num_positions <> 0%Z -> is_infinity (of_Z num_positions) = false ->
      AlpacaLiveTrading.calculate_allocation cash_balance percentage num_positions
      = Ok (cash_balance * percentage / of_Z num_positions))
  /\ (exists allocation,
        AlpacaLiveTrading.calculate_allocation (Backtest.cash_balance st) allocation_pct 20
        = Ok allocation
        /\ allocation = Backtest.cash_balance st * allocation_pct / 20
        /\ Backtest.backtest_day historical_data allocation_pct st d
           = let movers := Backtest.get_top_and_bottom_movers historical_data d in
             let day :=
               Backtest.simulate_day historical_data d (fst movers) (snd movers)
                 allocation (Backtest.trade_log_file st) in
             Backtest.mkState (Backtest.pnl_history st ++ [fst day])
                              (Backtest.cash_balance st + fst day) (snd day)).
Proof.
  split; [|split; [|split]].
  - intros ->. reflexivity.
  - intros H. unfold AlpacaLiveTrading.calculate_allocation. now rewrite H.
  - intros N H. unfold AlpacaLiveTrading.calculate_allocation. rewrite H.
    apply Z.eqb_neq in N. now rewrite N.
  - exists (Backtest.cash_balance st * allocation_pct / 20).
    split; [reflexivity|]. split; [reflexivity|]. apply backtest_day_eq.
Qed.

(** 100000 dollars, fully deployed: 5000 for each of 20 positions, nothing
    for none, and no float for a count of [2 ^ 1024]. *)
Lemma allocation_of_20_positions :
  AlpacaLiveTrading.calculate_allocation 100000 1 20 = Ok (100000 * 1 / of_Z 20)
  /\ 100000 * 1 / of_Z 20 = 5000
  /\ AlpacaLiveTrading.calculate_allocation 100000 1 0 = Raise ZeroDivisionError
  /\ AlpacaLiveTrading.calculate_allocation 100000 1 (2 ^ 1024) = Raise OverflowError.
Proof.
  split; [|split; [reflexivity|split]].
  - apply (allocation_divides_or_raises 100000 1 20 Samples.two_day_store 1
             (Backtest.mkState [] 100000 None) 1%Z);
      [discriminate | reflexivity].
  - apply (allocation_divides_or_raises 100000 1 0 Samples.two_day_store 1
             (Backtest.mkState [] 100000 None) 1%Z). reflexivity.
  - apply (allocation_divides_or_raises 100000 1 (2 ^ 1024) Samples.two_day_store 1
             (Backtest.mkState [] 100000 None) 1%Z). vm_compute. reflexivity.
Defined.

(** ** Sharpe ratio *)

(** C7, against the claim as stated: for a single-day history the standard
    deviation is NaN, not 0, and the call returns NaN; for a history of two
    zeros the standard deviation is 0 and the call returns minus infinity. *)
Lemma sharpe_ratio_of_zero_variance :
  Backtest.calculate_sharpe_ratio [500] Samples.risk_free_rate = nan
  /\ Backtest.Series_std [0; 0] = 0
  /\ Backtest.calculate_sharpe_ratio [0; 0] Samples.risk_free_rate = neg_infinity.
Proof. repeat split; vm_compute; reflexivity. Qed.

(** C7, amended.  [calculate_sharpe_ratio] returns
    [(mean - risk_free_rate / 252) / stddev]; it always returns a value: when
    the standard deviation is 0 that value is an infinity or NaN, and for a
    history with fewer than two numbers the standard deviation, and with it
    the ratio, is NaN. *)
Theorem sharpe_ratio_is_returned
    (daily_returns : list float) (risk_free_rate : float) :
  Backtest.calculate_sharpe_ratio daily_returns risk_free_rate
  = (Backtest.Series_mean daily_returns - risk_free_rate / 252)
    / Backtest.Series_std daily_returns
  /\ ((Backtest.Series_std daily_returns =? 0) = true ->
      is_finite (Backtest.calculate_sharpe_ratio daily_returns risk_free_rate) = false)
  /\ (List.length (Backtest.dropna daily_returns) <= 1 ->
      Backtest.calculate_sharpe_ratio daily_returns risk_free_rate = nan).
Proof.
  split; [reflexivity|]. split.
  - intros H. unfold Backtest.calculate_sharpe_ratio.
    now apply FloatFacts.div_by_zero_not_finite.
  - intros H. unfold Backtest.calculate_sharpe_ratio, Backtest.Series_std.
    apply Nat.leb_le in H. rewrite H. apply FloatFacts.div_by_nan.
Qed.

(** Two days without profit or loss, and a run of a single day. *)
Lemma sharpe_ratio_of_flat_and_single_day :
  is_finite (Backtest.calculate_sharpe_ratio [0; 0] Samples.risk_free_rate) = false
  /\ Backtest.calculate_sharpe_ratio [500] Samples.risk_free_rate = nan.
Proof.
  split.
  - apply (sharpe_ratio_is_returned [0; 0] Samples.risk_free_rate). reflexivity.
  - apply (sharpe_ratio_is_returned [500] Samples.risk_free_rate).
    vm_compute. lia.
Defined.

(** ** Further properties of the ranking, the trade log and the cash balance *)

(** For records whose changes are numbers (none is a NaN), the ranking is a
    stable descending sort: it keeps every record, no record is directly
    followed by one of strictly greater change, and a record comes before
    another only if it came before it in the input or its change is strictly
    greater. *)
Theorem ranking_is_stable_and_descending (movers : list (string * float)) :
  Forall (fun mover => is_nan (snd mover) = false) movers ->
  let ranked := Backtest.sort_movers movers in
  Permutation ranked movers
  /\ Forall (fun mover => is_nan (snd mover) = false) ranked
  /\ Sorted (fun y x => (snd y <? snd x) = false) ranked
  /\ (forall y x,
        Ranking.precedes y x ranked ->
        Ranking.precedes y x movers \/ (snd x <? snd y) = true).
Proof.
  intros H. unfold Backtest.sort_movers. split; [|split; [|split]].
  - apply ListFacts.sort_Permutation.
  - apply Forall_forall. intros mover Hin.
    apply (proj1 (ListFacts.sort_In _ _ _)) in Hin.
    exact (proj1 (Forall_forall _ _) H mover Hin).
  - apply (ListFacts.sort_Sorted (fun y x : string * float => snd x <? snd y)).
    intros u v. apply FloatFacts.ltb_asym.
  - intros y x. apply ListFacts.sort_stable.
Qed.

(** Changes 1, 3, 3 and 2: the two records of change 3 come first, in their
    input order. *)
Lemma ranking_of_four_records :
  let movers := [("A", 1); ("B", 3); ("C", 3); ("D", 2)] in
  Backtest.sort_movers movers = [("B", 3); ("C", 3); ("D", 2); ("A", 1)]
  /\ Permutation (Backtest.sort_movers movers) movers
  /\ Sorted (fun y x : string * float => (snd y <? snd x) = false)
            (Backtest.sort_movers movers).
Proof.
  intros movers. split; [vm_compute; reflexivity|].
  assert (H : Forall (fun mover : string * float => is_nan (snd mover) = false) movers)
    by (repeat constructor).
  destruct (ranking_is_stable_and_descending H) as (HP & _ & HS & _).
  split; [exact HP | exact HS].
Defined.

(** On a date, the rows written to the trade log are the opened positions,
    buys of the top movers before sells of the bottom movers, followed by
    one closing row per position in the same order; the header is written
    only into a new file; the PnL of the date is the sum of the
    contributions of these positions. *)
Theorem day_trades_are_logged_opened_then_closed
    (historical_data : Backtest.HistoricalData) (d : Backtest.date)
    (top bottom : list (string * float)) (allocation : float) (file : Backtest.File) :
  let prices := Backtest.prices_at Backtest.open historical_data d in
  let prices_close := Backtest.prices_at Backtest.close historical_data d in
  let portfolio :=
    flat_map (Day.opened allocation prices "buy") top
    ++ flat_map (Day.opened allocation prices "sell") bottom in
  let rows :=
    map (Backtest.row_of d) portfolio
    ++ map (Backtest.row_of d) (map (Day.closing_trade prices_close) portfolio) in
  Backtest.simulate_day historical_data d top bottom allocation file
  = (fold_left (fun pnl p => pnl + Day.pnl_contribution prices_close p) portfolio 0,
     match file with
     | None => Some (Backtest.Header :: rows)
     | Some old => Some (old ++ rows)
     end).
Proof.
  intros prices prices_close portfolio rows.
  unfold Backtest.simulate_day, Backtest.close_positions_and_log.
  rewrite !place_trades_spec, close_positions_spec. cbn [app].
  fold prices prices_close portfolio. f_equal.
  destruct file as [old|]; simpl; unfold rows; [now rewrite <- app_assoc | reflexivity].
Qed.

(** The cash balance that [backtest] returns is the initial cash plus the
    PnL of every date, added in date order. *)
Theorem final_cash_adds_every_pnl
    (historical_data : Backtest.HistoricalData) (cash allocation_pct : float)
    (file : Backtest.File) (st : Backtest.State) :
  Backtest.backtest historical_data cash allocation_pct file = Ok st ->
  Backtest.cash_balance st = fold_left add (Backtest.pnl_history st) cash.
Proof.
  unfold Backtest.backtest. destruct historical_data as [|[s df] rest]; [discriminate|].
  intros H. inversion H as [E]. clear H E.
  destruct (run_cash_balance ((s, df) :: rest) allocation_pct (Backtest.sorted_dates df)
              (Backtest.mkState [] cash None)) as (pnls & H1 & H2).
  now rewrite H1, H2.
Qed.

(** The eleven-symbol run ends with 100000 + 500 + 0. *)
Lemma final_cash_of_eleven_store :
  exists st,
    Backtest.backtest Samples.eleven_store 100000 1 None = Ok st
    /\ Backtest.pnl_history st = [500; 0]
    /\ Backtest.cash_balance st = 100000 + 500 + 0.
Proof.
  eexists. split; [reflexivity|]. split; [vm_compute; reflexivity|].
  apply (@final_cash_adds_every_pnl Samples.eleven_store 100000 1 None). reflexivity.
Defined.

(** ** Loading the symbol list *)

Lemma lstrip_head (s : Symbols.str) (ch : N) (rest : Symbols.str) :
  Symbols.lstrip s = ch :: rest -> Symbols.isspace ch = false.
Proof.
  induction s as [|a s IH]; simpl; [discriminate|].
  destruct (Symbols.isspace a) eqn:E; [exact IH|].
  intros H. inversion H; subst. exact E.
Qed.

Lemma lstrip_suffix (s : Symbols.str) : exists removed, s = removed ++ Symbols.lstrip s.
Proof.
  induction s as [|a s (removed & IH)]; simpl; [now exists []|].
  destruct (Symbols.isspace a); [|now exists []].
  exists (a :: removed). simpl. now rewrite <- IH.
Qed.

Lemma lstrip_fixed (s : Symbols.str) :
  (forall ch rest, s = ch :: rest -> Symbols.isspace ch = false) -> Symbols.lstrip s = s.
Proof.
  destruct s as [|a s]; [reflexivity|]. intros H. simpl.
  now rewrite (H a s eq_refl).
Qed.

Lemma rstrip_last (s : Symbols.str) (front : Symbols.str) (ch : N) :
  Symbols.rstrip s = front ++ [ch] -> Symbols.isspace ch = false.
Proof.
  unfold Symbols.rstrip. intros H.
  apply (f_equal (@rev N)) in H. rewrite rev_involutive, rev_app_distr in H.
  simpl in H. now apply lstrip_head in H.
Qed.

Lemma rstrip_fixed (s : Symbols.str) :
  (forall front ch, s = front ++ [ch] -> Symbols.isspace ch = false) -> Symbols.rstrip s = s.
Proof.
  intros H. unfold Symbols.rstrip. rewrite lstrip_fixed; [apply rev_involutive|].
  intros ch rest E. apply (H (rev rest) ch).
  rewrite <- (rev_involutive s), E. reflexivity.
Qed.

Lemma strip_head (s : Symbols.str) (ch : N) (rest : Symbols.str) :
  Symbols.strip s = ch :: rest -> Symbols.isspace ch = false.
Proof. apply lstrip_head. Qed.

Lemma strip_last (s : Symbols.str) (front : Symbols.str) (ch : N) :
  Symbols.strip s = front ++ [ch] -> Symbols.isspace ch = false.
Proof.
  unfold Symbols.strip. intros H.
  destruct (lstrip_suffix (Symbols.rstrip s)) as (removed & E).
  rewrite H, app_assoc in E. now apply rstrip_last in E.
Qed.

Lemma strip_fixed (s : Symbols.str) : Symbols.strip (Symbols.strip s) = Symbols.strip s.
Proof.
  unfold Symbols.strip at 1.
  rewrite rstrip_fixed; [|apply strip_last].
  apply lstrip_fixed, strip_head.
Qed.

Lemma stripped_lines_In (lines : list Symbols.str) (symbol : Symbols.str) :
  In symbol (Symbols.stripped_lines lines) <->
  exists line, In line lines /\ symbol = Symbols.strip line /\ symbol <> [].
Proof.
  induction lines as [|line lines IH]; simpl.
  - split; [tauto | intros (? & [] & _)].
  - destruct (Symbols.strip line) as [|ch rest] eqn:E; simpl; rewrite IH; split.
    + intros (l & ? & ? & ?). exists l. auto.
    + intros (l & [<-|H] & -> & N); [now rewrite E in N | exists l; auto].
    + intros [<-|(l & ? & ? & ?)].
      * exists line. rewrite E. repeat split; auto. discriminate.
      * exists l. auto.
    + intros (l & [<-|H] & -> & N); [left; now rewrite E | right; exists l; auto].
Qed.

(** Every symbol that [load_sp500_symbols] returns is a line of the file with
    the white space at both ends removed: it is not empty, neither its first
    nor its last character is white space, and stripping it again changes
    nothing.  A file that is not found gives no symbol. *)
Theorem loaded_symbols_are_stripped_lines
    (file : Symbols.TextFile) (symbol : Symbols.str) :
  In symbol (Symbols.load_sp500_symbols file) ->
  (exists lines line,
      file = Symbols.Lines lines /\ In line lines /\ symbol = Symbols.strip line)
  /\ symbol <> []
  /\ (forall ch rest, symbol = ch :: rest -> Symbols.isspace ch = false)
  /\ (forall front ch, symbol = front ++ [ch] -> Symbols.isspace ch = false)
  /\ Symbols.strip symbol = symbol.
Proof.
  destruct file as [|lines]; simpl; [tauto|].
  intros H. apply stripped_lines_In in H. destruct H as (line & Hin & -> & N).
  split; [now exists lines, line|]. split; [exact N|]. split; [|split].
  - apply strip_head.
  - apply strip_last.
  - apply strip_fixed.
Qed.

(** The lines ["AAPL\n"], ["\n"] and [" MSFT \n"]: the second symbol is
    [MSFT]. *)
Lemma loaded_symbols_of_three_lines :
  let file := Symbols.Lines [[65; 65; 80; 76; 10]; [10]; [32; 77; 83; 70; 84; 32; 10]]%N in
  Symbols.load_sp500_symbols file = [[65; 65; 80; 76]; [77; 83; 70; 84]]%N
  /\ Symbols.strip [77; 83; 70; 84]%N = [77; 83; 70; 84]%N.
Proof.
  intros file. split; [reflexivity|].
  apply (@loaded_symbols_are_stripped_lines file [77; 83; 70; 84]%N).
  right. left. reflexivity.
Defined.

(** Every line is either dropped or loaded, in file order. *)
Lemma stripped_lines_filter (lines : list Symbols.str) :
  Symbols.stripped_lines lines
  = filter Symbols.nonempty (map Symbols.strip lines).
Proof.
  induction lines as [|line lines IH]; simpl; [reflexivity|].
  destruct (Symbols.nonempty (Symbols.strip line)); now rewrite IH.
Qed.

(** ** The previous trading day *)

(** For a date from the fourth day on, [get_previous_trading_day] returns
    the latest earlier date that is not a Saturday or a Sunday: it lies one
    to three days back, falls on Monday to Friday, and every date between it
    and today is a Saturday or a Sunday. *)
Theorem previous_trading_day_is_latest_weekday (today : Z) :
  (4 <= today)%Z ->
  exists previous,
    Calendar.get_previous_trading_day today = Ok previous
    /\ (previous < today <= previous + 3)%Z
    /\ (0 <= Calendar.weekday previous <= 4)%Z
    /\ (forall d, (previous < d < today)%Z -> (5 <= Calendar.weekday d <= 6)%Z).
Proof.
  intros H. unfold Calendar.get_previous_trading_day, Calendar.weekday.
  set (w := ((today + 6) mod 7)%Z).
  assert (Hw : (0 <= w < 7)%Z) by (apply Z.mod_pos_bound; lia).
  assert (Hq : (today + 6 = 7 * ((today + 6) / 7) + w)%Z)
    by (apply Z.div_mod; lia).
  set (offset := Z.max 1 ((w + 6) mod 7 - 3)).
  assert (Ho : (offset = if w =? 0 then 3 else if w =? 6 then 2 else 1)%Z).
  { unfold offset.
    assert (C : (w = 0 \/ w = 1 \/ w = 2 \/ w = 3 \/ w = 4 \/ w = 5 \/ w = 6)%Z) by lia.
    destruct C as [->|[->|[->|[->|[->|[->| ->]]]]]]; reflexivity. }
  assert (Hoff : (1 <= offset <= 3)%Z)
    by (rewrite Ho; destruct (w =? 0)%Z, (w =? 6)%Z; lia).
  replace (today - offset <? 1)%Z with false by (symmetry; apply Z.ltb_ge; lia).
  exists (today - offset)%Z. split; [reflexivity|]. split; [lia|].
  split.
  - replace (today - offset + 6)%Z with ((w + 7 - offset) + ((today + 6) / 7 - 1) * 7)%Z by lia.
    rewrite Z.mod_add by lia.
    assert (C : (w = 0 \/ w = 1 \/ w = 2 \/ w = 3 \/ w = 4 \/ w = 5 \/ w = 6)%Z) by lia.
    rewrite Ho.
    destruct C as [->|[->|[->|[->|[->|[->| ->]]]]]]; simpl; split; discriminate.
  - intros d Hd.
    replace (d + 6)%Z with ((w + 7 - (today - d)) + ((today + 6) / 7 - 1) * 7)%Z by lia.
    rewrite Z.mod_add by lia.
    assert (C : (w = 0 \/ w = 1 \/ w = 2 \/ w = 3 \/ w = 4 \/ w = 5 \/ w = 6)%Z) by lia.
    assert (D : (today - d = 1 \/ today - d = 2)%Z) by lia.
    rewrite Ho in Hd.
    destruct C as [->|[->|[->|[->|[->|[->| ->]]]]]]; simpl in Hd;
      destruct D as [D|D]; try lia; rewrite D; simpl; split; discriminate.
Qed.

(** Monday 730003 (1999-09-06): the previous trading day is Friday 730000. *)
Lemma previous_trading_day_of_a_monday :
  Calendar.get_previous_trading_day 730003 = Ok 730000%Z
  /\ exists previous,
       Calendar.get_previous_trading_day 730003 = Ok previous
       /\ (previous < 730003 <= previous + 3)%Z
       /\ (0 <= Calendar.weekday previous <= 4)%Z
       /\ (forall d, (previous < d < 730003)%Z -> (5 <= Calendar.weekday d <= 6)%Z).
Proof.
  split; [reflexivity|].
  apply (@previous_trading_day_is_latest_weekday 730003%Z). lia.
Defined.

(** ** The live ranking and the live orders *)

Lemma get_daily_bar_some (response : TradingOpportunities.Response)
    (previous_close today_open : float) :
  TradingOpportunities.get_daily_bar response = (Some previous_close, Some today_open) <->
  exists earlier previous today,
    response = Some (earlier ++ [previous; today])
    /\ previous_close = TradingOpportunities.c previous
    /\ today_open = TradingOpportunities.o today.
Proof.
  unfold TradingOpportunities.get_daily_bar. split.
  - destruct response as [bars|]; [|discriminate].
    destruct (rev bars) as [|today [|previous rest]] eqn:E; try discriminate.
    intros H. inversion H; subst.
    exists (rev rest), previous, today. repeat split.
    apply (f_equal (@rev _)) in E. rewrite rev_involutive in E. rewrite E.
    simpl. now rewrite <- app_assoc.
  - intros (earlier & previous & today & -> & -> & ->).
    rewrite rev_app_distr. reflexivity.
Qed.

Lemma get_daily_bar_both (response : TradingOpportunities.Response) :
  (exists previous_close today_open,
      TradingOpportunities.get_daily_bar response = (Some previous_close, Some today_open))
  \/ TradingOpportunities.get_daily_bar response = (None, None).
Proof.
  unfold TradingOpportunities.get_daily_bar.
  destruct response as [bars|]; [|now right].
  destruct (rev bars) as [|today [|previous rest]]; [now right | now right | left; eauto].
Qed.

Lemma movers_of_In (symbols : list string) (api : string -> TradingOpportunities.Response)
    (s : string) (change : float) :
  In (s, change) (TradingOpportunities.movers_of symbols api) <->
  In s symbols
  /\ exists earlier previous today,
       api s = Some (earlier ++ [previous; today])
       /\ change = TradingOpportunities.calculate_percentage_change
                     (TradingOpportunities.c previous) (TradingOpportunities.o today).
Proof.
  induction symbols as [|symbol rest IH]; simpl; [tauto|].
  destruct (get_daily_bar_both (api symbol)) as [(pc & op & E)|E]; rewrite E.
  - simpl. rewrite IH. apply get_daily_bar_some in E.
    destruct E as (earlier & previous & today & E & -> & ->). split.
    + intros [H|[H R]]; [|now split; [right|]].
      inversion H; subst. split; [now left|]. now exists earlier, previous, today.
    + intros [[<-|H] (earlier' & previous' & today' & E' & ->)].
      * left. rewrite E in E'. inversion E' as [E''].
        change (earlier ++ [previous] ++ [today] = earlier' ++ [previous'] ++ [today'])
          in E''.
        rewrite !app_assoc in E''.
        apply app_inj_tail in E''. destruct E'' as [E'' <-].
        apply app_inj_tail in E''. destruct E'' as [_ <-]. reflexivity.
      * right. split; [exact H|]. now exists earlier', previous', today'.
  - rewrite IH. split.
    + intros [H R]. now split; [right|].
    + intros [[<-|H] R]; [|now split].
      destruct R as (earlier & previous & today & E' & _).
      assert (C : TradingOpportunities.get_daily_bar (api symbol)
                  = (Some (TradingOpportunities.c previous),
                     Some (TradingOpportunities.o today)))
        by (apply get_daily_bar_some; now exists earlier, previous, today).
      rewrite E in C. discriminate.
Qed.

(** The live ranking holds a record for a symbol exactly when the symbol is
    in the symbol list and the data API answered with at least two bars for
    it; the change of the record is computed from the close of the bar
    before the last and the open of the last bar.  A symbol whose request
    failed or gave fewer than two bars has no record.  Top and bottom hold
    such records only. *)
Theorem live_ranking_records
    (symbols : list string) (api : string -> TradingOpportunities.Response)
    (s : string) (change : float) :
  let recorded :=
    In s symbols
    /\ exists earlier previous today,
         api s = Some (earlier ++ [previous; today])
         /\ change = TradingOpportunities.calculate_percentage_change
                       (TradingOpportunities.c previous) (TradingOpportunities.o today) in
  (In (s, change) (TradingOpportunities.movers_of symbols api) <-> recorded)
  /\ (In (s, change) (fst (TradingOpportunities.get_top_and_bottom_movers symbols api))
      \/ In (s, change) (snd (TradingOpportunities.get_top_and_bottom_movers symbols api))
      -> recorded).
Proof.
  intros recorded. split; [apply movers_of_In|].
  intros H. apply movers_of_In.
  apply (ListFacts.sort_In (fun y x => snd x <? snd y)).
  unfold TradingOpportunities.get_top_and_bottom_movers in H. cbn [fst snd] in H.
  destruct H as [H|H].
  - eapply ListFacts.slice_first_In, H.
  - eapply ListFacts.slice_last_In, H.
Qed.

Lemma place_orders_In (movers : list (string * float)) (allocation : float)
    (latest_close : string -> option float) (side : string)
    (order : AlpacaLiveTrading.Order) :
  In order (AlpacaLiveTrading.place_orders movers allocation latest_close side) ->
  AlpacaLiveTrading.side order = side
  /\ In (AlpacaLiveTrading.order_symbol order) (map fst movers)
  /\ (0 < AlpacaLiveTrading.qty order)%Z
  /\ exists current_price,
       latest_close (AlpacaLiveTrading.order_symbol order) = Some current_price
       /\ (current_price =? 0) = false
       /\ int_of_float (floor_quotient allocation current_price)
          = Some (AlpacaLiveTrading.qty order).
Proof.
  induction movers as [|[s ch] rest IH]; simpl; [tauto|].
  assert (R : In order (AlpacaLiveTrading.place_orders rest allocation latest_close side) ->
              AlpacaLiveTrading.side order = side
              /\ (s = AlpacaLiveTrading.order_symbol order
                  \/ In (AlpacaLiveTrading.order_symbol order) (map fst rest))
              /\ (0 < AlpacaLiveTrading.qty order)%Z
              /\ exists current_price,
                   latest_close (AlpacaLiveTrading.order_symbol order) = Some current_price
                   /\ (current_price =? 0) = false
                   /\ int_of_float (floor_quotient allocation current_price)
                      = Some (AlpacaLiveTrading.qty order)).
  { intros H. destruct (IH H) as (? & ? & ? & ?). auto. }
  destruct (latest_close s) as [p|] eqn:L; [|exact R].
  unfold AlpacaLiveTrading.shares_for.
  destruct (p =? 0) eqn:Z; [exact R|].
  destruct (int_of_float (floor_quotient allocation p)) as [n|] eqn:I; [|exact R].
  destruct (0 <? n)%Z eqn:P; [|exact R].
  intros [<-|H]; [|now apply R]. simpl.
  split; [reflexivity|]. split; [now left|]. split; [now apply Z.ltb_lt|].
  exists p. auto.
Qed.

Lemma place_orders_length (movers : list (string * float)) (allocation : float)
    (latest_close : string -> option float) (side : string) :
  List.length (AlpacaLiveTrading.place_orders movers allocation latest_close side)
  <= List.length movers.
Proof.
  induction movers as [|[s ch] rest IH]; simpl; [lia|].
  destruct (latest_close s) as [p|]; [|lia].
  destruct (AlpacaLiveTrading.shares_for allocation p) as [n|]; [|lia].
  destruct (0 <? n)%Z; simpl; lia.
Qed.

(** Every order that [execute_strategy] places is a [buy] for a top mover or
    a [sell] for a bottom mover, for a symbol whose latest price could be
    read and is not zero, and for a positive whole number of shares, the
    floored quotient of the allocation by that price; there is at most one
    order per mover. *)
Theorem execute_strategy_orders
    (top_movers bottom_movers : list (string * float)) (allocation : float)
    (latest_close : string -> option float) (order : AlpacaLiveTrading.Order) :
  In order (AlpacaLiveTrading.execute_strategy top_movers bottom_movers allocation
              latest_close) ->
  ((AlpacaLiveTrading.side order = "buy"
    /\ In (AlpacaLiveTrading.order_symbol order) (map fst top_movers))
   \/ (AlpacaLiveTrading.side order = "sell"
       /\ In (AlpacaLiveTrading.order_symbol order) (map fst bottom_movers)))
  /\ (0 < AlpacaLiveTrading.qty order)%Z
  /\ (exists current_price,
        latest_close (AlpacaLiveTrading.order_symbol order) = Some current_price
        /\ (current_price =? 0) = false
        /\ int_of_float (floor_quotient allocation current_price)
           = Some (AlpacaLiveTrading.qty order))
  /\ List.length (AlpacaLiveTrading.execute_strategy top_movers bottom_movers allocation
                    latest_close)
     <= List.length top_movers + List.length bottom_movers.
Proof.
  unfold AlpacaLiveTrading.execute_strategy. intros H.
  assert (L := place_orders_length top_movers allocation latest_close "buy").
  assert (L' := place_orders_length bottom_movers allocation latest_close "sell").
  rewrite length_app.
  apply in_app_or in H. destruct H as [H|H]; apply place_orders_In in H;
    destruct H as (? & ? & ? & ?); repeat split; auto; lia.
Qed.

(** An allocation of 5000 with a latest price of 100 for [A] and no price for
    [B]: one buy of 50 shares of [A]. *)
Lemma execute_strategy_buys_fifty :
  let latest_close := fun s => if String.eqb s "A" then Some 100 else None in
  AlpacaLiveTrading.execute_strategy [("A", 2); ("B", 1)] [] 5000 latest_close
    = [AlpacaLiveTrading.mkOrder "A" 50 "buy"]
  /\ (0 < 50)%Z.
Proof.
  intros latest_close. split; [vm_compute; reflexivity|].
  apply (@execute_strategy_orders [("A", 2); ("B", 1)] [] 5000 latest_close
           (AlpacaLiveTrading.mkOrder "A" 50 "buy")).
  vm_compute. now left.
Defined.

(** ** Closing the live positions *)

Lemma close_loop_orders (positions : list LiveClose.Position)
    (get_activities : nat -> option (list LiveClose.Activity)) (call : nat) :
  let orders := fst (LiveClose.close_loop positions get_activities call) in
  let printed := snd (LiveClose.close_loop positions get_activities call) in
  Forall2 LiveClose.closes (firstn (List.length orders) positions) orders
  /\ map fst printed
     = map LiveClose.position_symbol (firstn (List.length printed) positions)
  /\ List.length printed <= List.length orders <= S (List.length printed).
Proof.
  revert call. induction positions as [|position rest IH]; intros call; simpl.
  - repeat split; auto.
  - destruct (LiveClose.position_qty position) as [q|] eqn:Q; [|simpl; repeat split; auto].
    assert (C : LiveClose.closes position
                  (AlpacaLiveTrading.mkOrder (LiveClose.position_symbol position)
                     (Z.abs q) (if (0 <? q)%Z then "sell" else "buy")))
      by (exists q; auto).
    destruct (get_activities call) as [activities|];
      [|simpl; repeat split; auto; repeat constructor; exact C].
    destruct (LiveClose.realized _ _ activities 0) as [pnl|];
      [|simpl; repeat split; auto; repeat constructor; exact C].
    specialize (IH (S call)).
    destruct (LiveClose.close_loop rest get_activities (S call)) as [orders printed].
    simpl in *. destruct IH as (F & M & L). repeat split.
    + now constructor.
    + now rewrite M.
    + lia.
    + lia.
Qed.

Lemma realized_some (symbol side : string) (activities : list LiveClose.Activity)
    (realized_pnl : float) :
  Forall (fun activity => LiveClose.cum_qty activity <> None
                          /\ LiveClose.activity_price activity <> None) activities ->
  exists pnl, LiveClose.realized symbol side activities realized_pnl = Some pnl.
Proof.
  intros H. revert realized_pnl.
  induction H as [|activity rest [Hq Hp] _ IH]; intros realized_pnl; simpl; [eauto|].
  destruct (String.eqb (LiveClose.activity_symbol activity) symbol); [|apply IH].
  destruct (LiveClose.cum_qty activity); [|congruence].
  destruct (LiveClose.activity_price activity); [|congruence].
  apply IH.
Qed.

Lemma close_loop_complete (positions : list LiveClose.Position)
    (get_activities : nat -> option (list LiveClose.Activity)) (call : nat) :
  Forall (fun position => LiveClose.position_qty position <> None) positions ->
  (forall n, exists activities,
      get_activities n = Some activities
      /\ Forall (fun activity => LiveClose.cum_qty activity <> None
                                 /\ LiveClose.activity_price activity <> None) activities) ->
  List.length (fst (LiveClose.close_loop positions get_activities call))
  = List.length positions.
Proof.
  intros Hp Ha. revert call.
  induction Hp as [|position rest Hq _ IH]; intros call; simpl; [reflexivity|].
  destruct (LiveClose.position_qty position) as [q|]; [|congruence].
  destruct (Ha call) as (activities & -> & Hok).
  destruct (realized_some (LiveClose.position_symbol position)
              (if (0 <? q)%Z then "sell" else "buy") 0 Hok) as (pnl & ->).
  specialize (IH (S call)).
  destruct (LiveClose.close_loop rest get_activities (S call)) as [orders printed].
  simpl in *. now rewrite IH.
Qed.

(** [close_all_positions] places its orders for the listed positions in
    order, one each and for a leading part of the list only: the order for a
    position has its symbol, the absolute quantity, and the side [sell] for a
    long and [buy] for any other position.  A realized PnL is printed for
    every position ordered, except possibly the last.  When the positions
    cannot be listed no order is placed, and when every quantity and every
    fill can be read each position gets its order. *)
Theorem close_all_positions_orders
    (positions : list LiveClose.Position)
    (get_activities : nat -> option (list LiveClose.Activity)) :
  let orders := fst (LiveClose.close_all_positions (Some positions) get_activities) in
  let printed := snd (LiveClose.close_all_positions (Some positions) get_activities) in
  Forall2 LiveClose.closes (firstn (List.length orders) positions) orders
  /\ map fst printed
     = map LiveClose.position_symbol (firstn (List.length printed) positions)
  /\ List.length printed <= List.length orders <= S (List.length printed)
  /\ LiveClose.close_all_positions None get_activities = ([], [])
  /\ (Forall (fun position => LiveClose.position_qty position <> None) positions ->
      (forall n, exists activities,
          get_activities n = Some activities
          /\ Forall (fun activity => LiveClose.cum_qty activity <> None
                                     /\ LiveClose.activity_price activity <> None)
               activities) ->
      List.length orders = List.length positions).
Proof.
  intros orders printed. unfold orders, printed, LiveClose.close_all_positions.
  destruct (close_loop_orders positions get_activities 0) as (F & M & L).
  repeat split; auto; try lia.
  apply close_loop_complete.
Qed.

(** A long position of 10 and a short position of 5, no fills reported: a
    sell of 10 and a buy of 5. *)
Lemma close_all_positions_of_long_and_short :
  let positions :=
    [LiveClose.mkPosition "A" (Some 10%Z); LiveClose.mkPosition "B" (Some (-5)%Z)] in
  LiveClose.close_all_positions (Some positions) (fun _ => Some [])
    = ([AlpacaLiveTrading.mkOrder "A" 10 "sell"; AlpacaLiveTrading.mkOrder "B" 5 "buy"],
       [("A", 0); ("B", 0)])
  /\ List.length (fst (LiveClose.close_all_positions (Some positions) (fun _ => Some [])))
     = List.length positions.
Proof.
  intros positions. split; [reflexivity|].
  apply (close_all_positions_orders positions (fun _ => Some [])).
  - repeat constructor; discriminate.
  - intros n. exists []. split; [reflexivity | constructor].
Defined.

(** ** The performance report *)

Lemma firstn_snoc (A : Type) (l : list A) (i : nat) (x : A) :
  nth_error l i = Some x -> firstn (S i) l = firstn i l ++ [x].
Proof.
  revert i. induction l as [|a l IH]; intros [|i] H; try discriminate.
  - simpl in H. now inversion H.
  - simpl in H. change (firstn (S (S i)) (a :: l)) with (a :: firstn (S i) l).
    now rewrite (IH i H).
Qed.

Lemma cumulative_nth (pnl_history : list float) (i : nat) :
  i < List.length pnl_history ->
  nth_error (Performance.cumulative_pnl pnl_history) i
  = Some (Performance.sum (firstn (i + 1) pnl_history)).
Proof.
  intros H. unfold Performance.cumulative_pnl.
  rewrite nth_error_map, nth_error_seq.
  apply Nat.ltb_lt in H. now rewrite H.
Qed.

(** The series that [analyze_performance] plots is the running total of the
    PnL history: it has one entry per day, starts with the first day's PnL
    and grows by each day's PnL; its last entry is the total PnL printed.
    The final portfolio value printed is the cash given plus the sum of all
    the running totals. *)
Theorem cumulative_pnl_is_running_total (pnl_history : list float) (cash : float) :
  let report := Performance.analyze_performance pnl_history cash in
  List.length (Performance.plotted report) = List.length pnl_history
  /\ (forall x, nth_error pnl_history 0 = Some x ->
        nth_error (Performance.plotted report) 0 = Some (0 + x))
  /\ (forall i x, nth_error pnl_history (S i) = Some x ->
        exists total,
          nth_error (Performance.plotted report) i = Some total
          /\ nth_error (Performance.plotted report) (S i) = Some (total + x))
  /\ (pnl_history <> [] ->
      last (Performance.plotted report) 0 = Performance.total_pnl report)
  /\ Performance.final_portfolio_value report
     = cash + fold_left add (Performance.plotted report) 0.
Proof.
  cbv zeta. unfold Performance.analyze_performance. cbn [Performance.plotted
    Performance.total_pnl Performance.final_portfolio_value].
  split; [|split; [|split; [|split]]].
  - unfold Performance.cumulative_pnl. now rewrite length_map, length_seq.
  - intros x H. rewrite cumulative_nth.
    + destruct pnl_history as [|y l]; [discriminate|]. now inversion H.
    + apply nth_error_Some. congruence.
  - intros i x H.
    assert (Hi : S i < List.length pnl_history) by (apply nth_error_Some; congruence).
    exists (Performance.sum (firstn (i + 1) pnl_history)).
    rewrite !cumulative_nth by lia. split; [reflexivity|].
    rewrite !Nat.add_1_r, (@firstn_snoc _ pnl_history (S i) x H).
    unfold Performance.sum. now rewrite fold_left_app.
  - intros N.
    assert (L : List.length pnl_history <> 0%nat) by (destruct pnl_history; simpl; congruence).
    unfold Performance.cumulative_pnl.
    replace (List.length pnl_history) with (S (List.length pnl_history - 1))%nat at 1 by lia.
    rewrite seq_S, map_app. cbn [map]. rewrite last_last. cbn [Nat.add].
    replace (List.length pnl_history - 1 + 1)%nat with (List.length pnl_history) by lia.
    now rewrite firstn_all.
  - reflexivity.
Qed.

(** ** More on ranking and positions in the backtest *)

(** The symbols ranked on a date are the symbols of the store that have a
    row at that date, each once per store entry and in store order; top and
    bottom hold none but these. *)
Theorem ranked_symbols_are_present_symbols
    (historical_data : Backtest.HistoricalData) (d : Backtest.date) :
  map fst (Backtest.movers_at historical_data d)
  = map fst (Day.present_at d historical_data)
  /\ (forall s,
        In s (map fst (fst (Backtest.get_top_and_bottom_movers historical_data d)))
        \/ In s (map fst (snd (Backtest.get_top_and_bottom_movers historical_data d))) ->
        In s (map fst (Day.present_at d historical_data)))
  /\ List.length (fst (Backtest.get_top_and_bottom_movers historical_data d))
     = Nat.min 10 (List.length (Day.present_at d historical_data)).
Proof.
  assert (E : map fst (Backtest.movers_at historical_data d)
              = map fst (Day.present_at d historical_data)).
  { induction historical_data as [|[s df] rest IH]; simpl; [reflexivity|].
    destruct (Backtest.loc df d); simpl; now rewrite IH. }
  split; [exact E|]. split.
  - intros s H. rewrite <- E.
    assert (R : forall m, In m (Backtest.sort_movers (Backtest.movers_at historical_data d)) ->
                          In (fst m) (map fst (Backtest.movers_at historical_data d))).
    { intros m Hm. apply in_map.
      exact (proj1 (ListFacts.sort_In (fun y x => snd x <? snd y) m
                      (Backtest.movers_at historical_data d)) Hm). }
    unfold Backtest.get_top_and_bottom_movers in H. cbn [fst snd] in H.
    destruct H as [H|H]; apply in_map_iff in H; destruct H as (m & <- & H); apply R.
    + eapply ListFacts.slice_first_In, H.
    + eapply ListFacts.slice_last_In, H.
  - unfold Backtest.get_top_and_bottom_movers. cbn [fst].
    rewrite ListFacts.slice_first_length. unfold Backtest.sort_movers.
    rewrite ListFacts.sort_length.
    now rewrite <- (length_map fst (Backtest.movers_at historical_data d)), E, length_map.
Qed.

Lemma opened_trades (allocation : float) (prices : dict float) (trade_type : string)
    (movers : list (string * float)) (position : Backtest.Trade) :
  In position (flat_map (Day.opened allocation prices trade_type) movers) ->
  Backtest.trade_type position = trade_type
  /\ In (Backtest.symbol position) (map fst movers)
  /\ get (Backtest.symbol position) prices = Some (Backtest.price position)
  /\ Backtest.quantity position
     = (if String.eqb trade_type "buy" then floor_divide allocation (Backtest.price position)
        else - floor_divide allocation (Backtest.price position)).
Proof.
  rewrite in_flat_map. intros ([s ch] & Hin & H). unfold Day.opened in H. simpl in H.
  destruct (get s prices) as [p|] eqn:E; [|contradiction].
  destruct H as [<-|[]]. simpl. repeat split; auto.
  apply in_map_iff. now exists (s, ch).
Qed.

Lemma opened_length (allocation : float) (prices : dict float) (trade_type : string)
    (movers : list (string * float)) :
  List.length (flat_map (Day.opened allocation prices trade_type) movers)
  <= List.length movers.
Proof.
  induction movers as [|[s ch] rest IH]; simpl; [lia|].
  unfold Day.opened at 1. simpl. destruct (get s prices); simpl; lia.
Qed.

(** [place_trades] only appends: the positions already in the portfolio stay
    in front, unchanged; it adds at most one position per mover, in mover
    order, each of the given trade type, for a mover that has a price, at
    that price, with the floored quotient of the allocation by the price as
    quantity for a [buy] and its negation otherwise.  Placing the trades of
    a list of movers is placing those of a first part, then those of the
    rest. *)
Theorem place_trades_appends
    (portfolio : list Backtest.Trade) (movers more : list (string * float))
    (allocation : float) (prices : dict float) (trade_type : string) :
  (exists added,
      Backtest.place_trades portfolio movers allocation prices trade_type
      = portfolio ++ added
      /\ List.length added <= List.length movers
      /\ Forall (fun position =>
                   Backtest.trade_type position = trade_type
                   /\ In (Backtest.symbol position) (map fst movers)
                   /\ get (Backtest.symbol position) prices = Some (Backtest.price position)
                   /\ Backtest.quantity position
                      = (if String.eqb trade_type "buy"
                         then floor_divide allocation (Backtest.price position)
                         else - floor_divide allocation (Backtest.price position)))
           added)
  /\ Backtest.place_trades portfolio (movers ++ more) allocation prices trade_type
     = Backtest.place_trades
         (Backtest.place_trades portfolio movers allocation prices trade_type)
         more allocation prices trade_type
  /\ (forall s change,
        get s prices = None ->
        Backtest.place_trades portfolio ((s, change) :: more) allocation prices trade_type
        = Backtest.place_trades portfolio more allocation prices trade_type).
Proof.
  split; [|split].
  - exists (flat_map (Day.opened allocation prices trade_type) movers).
    split; [apply place_trades_spec|]. split; [apply opened_length|].
    apply Forall_forall. intros position. apply opened_trades.
  - rewrite !place_trades_spec, flat_map_app. now rewrite app_assoc.
  - intros s change E. simpl. now rewrite E.
Qed.

(** The specification-level product is odd in its second factor. *)
Lemma binary_round_aux_negb (s : bool) (m e : Z) (l : location) :
  binary_round_aux prec emax (negb s) m e l
  = SFopp (binary_round_aux prec emax s m e l).
Proof.
  unfold binary_round_aux.
  destruct (shr_fexp prec emax m e l) as [mrs e'].
  destruct (shr_fexp prec emax _ e' loc_Exact) as [mrs' e''].
  destruct (shr_m mrs'); [reflexivity | | reflexivity].
  now destruct (e'' <=? emax - prec)%Z.
Qed.

Lemma mul_opp_r (x y : float) : x * - y = - (x * y).
Proof.
  apply Prim2SF_inj. rewrite opp_spec, !mul_spec, opp_spec.
  destruct (Prim2SF x) as [sx|sx| |sx mx ex], (Prim2SF y) as [sy|sy| |sy my ey];
    try reflexivity; simpl; try (now destruct sx, sy).
  rewrite <- binary_round_aux_negb. now destruct sx, sy.
Qed.

(** A mover that is ranked both top and bottom is bought and sold short at
    the same price for the same number of shares, and whatever the close
    price, the PnL contributions of the two positions are exact opposites. *)
Theorem overlapping_positions_are_opposite
    (mover : string * float) (allocation : float) (prices prices_close : dict float)
    (bought : Backtest.Trade) :
  Backtest.place_trades [] [mover] allocation prices "buy" = [bought] ->
  exists sold,
    Backtest.place_trades [] [mover] allocation prices "sell" = [sold]
    /\ Backtest.symbol sold = Backtest.symbol bought
    /\ Backtest.price sold = Backtest.price bought
    /\ Backtest.quantity sold = - Backtest.quantity bought
    /\ Day.pnl_contribution prices_close sold = - Day.pnl_contribution prices_close bought.
Proof.
  destruct mover as [s ch]. simpl.
  destruct (get s prices) as [p|]; [|discriminate].
  intros H. inversion H; subst. clear H. simpl.
  eexists. split; [reflexivity|]. simpl. repeat split.
  unfold Day.pnl_contribution, Day.close_price. simpl. apply mul_opp_r.
Qed.

(** The single symbol of the two-day store on its second date, with an
    allocation of 50: 4 shares bought and 4 sold short at 12. *)
Lemma overlapping_positions_of_two_day_store :
  exists sold,
    Backtest.place_trades [] [("A", 1)] 50 [("A", 12)] "sell" = [sold]
    /\ Backtest.symbol sold = "A"
    /\ Backtest.price sold = 12
    /\ Backtest.quantity sold = - 4
    /\ Day.pnl_contribution [("A", 11)] sold
       = - Day.pnl_contribution [("A", 11)] (Backtest.mkTrade "A" 4 12 "buy").
Proof.
  apply (@overlapping_positions_are_opposite ("A", 1) 50 [("A", 12)] [("A", 11)]
           (Backtest.mkTrade "A" 4 12 "buy")).
  vm_compute. reflexivity.
Defined.

(** ** The trade log of a run *)

Lemma prices_at_bar (historical_data : Backtest.HistoricalData) (d : Backtest.date)
    (s : string) (p : float) :
  get s (Backtest.prices_at Backtest.open historical_data d) = Some p ->
  exists df bar,
    In (s, df) historical_data /\ Backtest.loc df d = Some bar
    /\ p = Backtest.open bar
    /\ get s (Backtest.prices_at Backtest.close historical_data d)
       = Some (Backtest.close bar).
Proof.
  induction historical_data as [|[s' df'] rest IH]; simpl; [discriminate|].
  destruct (Backtest.loc df' d) as [bar|] eqn:L; simpl.
  - destruct (String.eqb s s') eqn:E.
    + apply String.eqb_eq in E. subst s'. intros H. inversion H; subst.
      exists df', bar. auto.
    + intros H. destruct (IH H) as (df & bar' & ? & ? & ? & ?). exists df, bar'. auto.
  - intros H. destruct (IH H) as (df & bar' & ? & ? & ? & ?). exists df, bar'. auto.
Qed.

Lemma simulate_day_rows (historical_data : Backtest.HistoricalData) (d : Backtest.date)
    (top bottom : list (string * float)) (allocation : float) (file : Backtest.File) :
  let prices := Backtest.prices_at Backtest.open historical_data d in
  let prices_close := Backtest.prices_at Backtest.close historical_data d in
  let portfolio :=
    flat_map (Day.opened allocation prices "buy") top
    ++ flat_map (Day.opened allocation prices "sell") bottom in
  let rows :=
    map (Backtest.row_of d) portfolio
    ++ map (Backtest.row_of d) (map (Day.closing_trade prices_close) portfolio) in
  snd (Backtest.simulate_day historical_data d top bottom allocation file)
  = match file with
    | None => Some (Backtest.Header :: rows)
    | Some old => Some (old ++ rows)
    end.
Proof.
  intros prices prices_close portfolio rows.
  unfold Backtest.simulate_day, Backtest.close_positions_and_log.
  rewrite !place_trades_spec, close_positions_spec. cbn [app snd].
  fold prices prices_close portfolio.
  destruct file as [old|]; simpl; unfold rows; [now rewrite <- app_assoc | reflexivity].
Qed.

Lemma day_rows_priced (historical_data : Backtest.HistoricalData) (d : Backtest.date)
    (top bottom : list (string * float)) (allocation : float) :
  let prices := Backtest.prices_at Backtest.open historical_data d in
  let prices_close := Backtest.prices_at Backtest.close historical_data d in
  let portfolio :=
    flat_map (Day.opened allocation prices "buy") top
    ++ flat_map (Day.opened allocation prices "sell") bottom in
  Forall (fun row => TradeLog.dated d row /\ TradeLog.priced_from historical_data row)
    (map (Backtest.row_of d) portfolio
     ++ map (Backtest.row_of d) (map (Day.closing_trade prices_close) portfolio)).
Proof.
  intros prices prices_close portfolio.
  assert (P : forall position, In position portfolio ->
                (Backtest.trade_type position = "buy" \/ Backtest.trade_type position = "sell")
                /\ exists df bar,
                     In (Backtest.symbol position, df) historical_data
                     /\ Backtest.loc df d = Some bar
                     /\ Backtest.price position = Backtest.open bar
                     /\ get (Backtest.symbol position) prices_close
                        = Some (Backtest.close bar)).
  { intros position H. unfold portfolio in H. apply in_app_or in H.
    destruct H as [H|H]; apply opened_trades in H; destruct H as (T & _ & G & _);
      (split; [auto|]); apply prices_at_bar in G;
      destruct G as (df & bar & ? & ? & ? & ?); exists df, bar; auto. }
  apply Forall_app. split; apply Forall_forall; intros row H.
  - apply in_map_iff in H. destruct H as (position & <- & H).
    destruct (P position H) as (T & df & bar & ? & ? & ? & ?).
    split; [reflexivity|]. simpl. exists df, bar. auto.
  - apply in_map_iff in H. destruct H as (closing & <- & H).
    apply in_map_iff in H. destruct H as (position & <- & H).
    destruct (P position H) as (T & df & bar & ? & ? & ? & G).
    split; [reflexivity|]. simpl. exists df, bar. repeat split; auto.
    right. split; [reflexivity|]. unfold Day.close_price. now rewrite G.
Qed.

Lemma backtest_day_rows (historical_data : Backtest.HistoricalData) (allocation_pct : float)
    (st : Backtest.State) (d : Backtest.date) :
  exists segment,
    Backtest.trade_log_file (Backtest.backtest_day historical_data allocation_pct st d)
    = match Backtest.trade_log_file st with
      | None => Some (Backtest.Header :: segment)
      | Some old => Some (old ++ segment)
      end
    /\ Forall (fun row => TradeLog.dated d row /\ TradeLog.priced_from historical_data row)
         segment.
Proof.
  rewrite backtest_day_eq. cbv zeta. cbn [Backtest.trade_log_file].
  rewrite simulate_day_rows. eexists. split; [reflexivity|]. apply day_rows_priced.
Qed.

Lemma run_rows (historical_data : Backtest.HistoricalData) (allocation_pct : float)
    (dates : list Backtest.date) (st : Backtest.State) (old : list Backtest.CsvRow) :
  Backtest.trade_log_file st = Some old ->
  exists segments,
    Backtest.trade_log_file
      (fold_left (Backtest.backtest_day historical_data allocation_pct) dates st)
    = Some (old ++ List.concat segments)
    /\ Forall2 (fun d segment =>
                  Forall (fun row => TradeLog.dated d row
                                     /\ TradeLog.priced_from historical_data row) segment)
         dates segments.
Proof.
  revert st old. induction dates as [|d dates IH]; intros st old H.
  - exists []. simpl. rewrite app_nil_r. auto.
  - destruct (backtest_day_rows historical_data allocation_pct st d) as (segment & E & F).
    rewrite H in E. cbn [fold_left].
    destruct (IH _ _ E) as (segments & E' & F').
    exists (segment :: segments). simpl. rewrite app_assoc. auto.
Qed.

Lemma Sorted_weaken (A : Type) (R R' : A -> A -> Prop) (l : list A) :
  (forall a b, R a b -> R' a b) -> Sorted R l -> Sorted R' l.
Proof.
  intros W H. induction H as [|a l _ IH Hd]; constructor; [exact IH|].
  destruct Hd; constructor. now apply W.
Qed.

(** The trade log that [backtest] leaves is the header row followed by one
    segment of trade rows per date, the dates being those of the first
    symbol's series in ascending order: every row of a date's segment carries
    that date, its symbol has a bar at that date, and its price is the open
    of that bar for a [buy] or a [sell] and the close of that bar for a
    [close].  The header occurs nowhere else.  A first series without dates
    leaves no log. *)
Theorem trade_log_is_header_and_dated_segments
    (symbol : string) (df : Backtest.DataFrame) (rest : Backtest.HistoricalData)
    (cash allocation_pct : float) (file : Backtest.File) :
  let historical_data := (symbol, df) :: rest in
  exists st segments,
    Backtest.backtest historical_data cash allocation_pct file = Ok st
    /\ Backtest.trade_log_file st
       = match Backtest.sorted_dates df with
         | [] => None
         | _ => Some (Backtest.Header :: List.concat segments)
         end
    /\ Forall2 (fun d segment =>
                  Forall (fun row => TradeLog.dated d row
                                     /\ TradeLog.priced_from historical_data row) segment)
         (Backtest.sorted_dates df) segments
    /\ Sorted Z.le (Backtest.sorted_dates df)
    /\ Permutation (Backtest.sorted_dates df) (Backtest.index df).
Proof.
  intros historical_data.
  change (Backtest.backtest historical_data cash allocation_pct file)
    with (Ok (fold_left (Backtest.backtest_day historical_data allocation_pct)
                (Backtest.sorted_dates df) (Backtest.mkState [] cash None))).
  assert (S : Sorted Z.le (Backtest.sorted_dates df)).
  { apply Sorted_weaken with (R := fun u v => (v <? u)%Z = false).
    - intros a b H. apply Z.ltb_ge in H. exact H.
    - apply (ListFacts.sort_Sorted (fun y x => (y <? x)%Z)).
      intros u v H. apply Z.ltb_lt in H. apply Z.ltb_ge. lia. }
  assert (P : Permutation (Backtest.sorted_dates df) (Backtest.index df))
    by apply ListFacts.sort_Permutation.
  destruct (Backtest.sorted_dates df) as [|d dates] eqn:D.
  - exists (Backtest.mkState [] cash None), []. simpl.
    repeat split; auto; constructor.
  - cbn [fold_left].
    destruct (backtest_day_rows historical_data allocation_pct
                (Backtest.mkState [] cash None) d) as (segment & E & F).
    cbn [Backtest.trade_log_file] in E.
    destruct (run_rows historical_data allocation_pct dates _ E) as (segments & E' & F').
    eexists. exists (segment :: segments). split; [reflexivity|].
    split; [exact E'|]. split; [now constructor|]. split; assumption.
Qed.

(** ** Top and bottom of a long ranking *)

Lemma slices_split (A : Type) (n : nat) (l : list A) :
  2 * n <= List.length l ->
  exists middle,
    l = slice_first n l ++ middle ++ slice_last n l
    /\ List.length (slice_first n l) = n
    /\ List.length (slice_last n l) = n
    /\ List.length middle = (List.length l - 2 * n)%nat.
Proof.
  intros H. exists (firstn (List.length l - 2 * n)%nat (skipn n l)).
  unfold slice_first, slice_last. repeat split.
  - replace (skipn (List.length l - n)%nat l)
      with (skipn (List.length l - 2 * n)%nat (skipn n l)).
    + now rewrite !firstn_skipn.
    + rewrite skipn_skipn. f_equal. lia.
  - rewrite length_firstn. lia.
  - rewrite length_skipn. lia.
  - rewrite length_firstn, length_skipn. lia.
Qed.

(** When at least 20 records are ranked, top and bottom are separate parts
    of the ranking: the ranked list is the 10 records of top, then the
    records between, then the 10 records of bottom, so that no position of
    the ranking is in both.  This holds for the ranking of [backtest.py] and
    for the one of [trading_opportunities.py]. *)
Theorem top_and_bottom_are_apart_from_twenty
    (historical_data : Backtest.HistoricalData) (d : Backtest.date)
    (symbols : list string) (api : string -> TradingOpportunities.Response) :
  let ranked := Backtest.sort_movers (Backtest.movers_at historical_data d) in
  let ranked_live :=
    sort (fun y x => snd x <? snd y) (TradingOpportunities.movers_of symbols api) in
  (20 <= List.length ranked ->
   exists middle,
     ranked = fst (Backtest.get_top_and_bottom_movers historical_data d)
              ++ middle ++ snd (Backtest.get_top_and_bottom_movers historical_data d)
     /\ List.length (fst (Backtest.get_top_and_bottom_movers historical_data d)) = 10%nat
     /\ List.length (snd (Backtest.get_top_and_bottom_movers historical_data d)) = 10%nat
     /\ List.length middle = (List.length ranked - 20)%nat)
  /\ (20 <= List.length ranked_live ->
      exists middle,
        ranked_live
        = fst (TradingOpportunities.get_top_and_bottom_movers symbols api)
          ++ middle ++ snd (TradingOpportunities.get_top_and_bottom_movers symbols api)
        /\ List.length (fst (TradingOpportunities.get_top_and_bottom_movers symbols api)) = 10%nat
        /\ List.length (snd (TradingOpportunities.get_top_and_bottom_movers symbols api)) = 10%nat
        /\ List.length middle = (List.length ranked_live - 20)%nat).
Proof.
  intros ranked ranked_live. split; intros H.
  - apply (@slices_split _ 10 ranked). lia.
  - apply (@slices_split _ 10 ranked_live). lia.
Qed.

(** Twenty-one symbols that all answer with the same two bars: top holds the
    first ten, bottom the last ten, and one record lies between. *)
Lemma top_and_bottom_of_twenty_one :
  let symbols :=
    ["S00"; "S01"; "S02"; "S03"; "S04"; "S05"; "S06"; "S07"; "S08"; "S09"; "S10";
     "S11"; "S12"; "S13"; "S14"; "S15"; "S16"; "S17"; "S18"; "S19"; "S20"] in
  let api := fun _ : string =>
    Some [TradingOpportunities.mkApiBar 10 10; TradingOpportunities.mkApiBar 11 12] in
  exists middle,
    sort (fun y x => snd x <? snd y) (TradingOpportunities.movers_of symbols api)
    = fst (TradingOpportunities.get_top_and_bottom_movers symbols api)
      ++ middle ++ snd (TradingOpportunities.get_top_and_bottom_movers symbols api)
    /\ List.length (fst (TradingOpportunities.get_top_and_bottom_movers symbols api)) = 10%nat
    /\ List.length (snd (TradingOpportunities.get_top_and_bottom_movers symbols api)) = 10%nat
    /\ List.length middle
       = Nat.sub (List.length (sort (fun y x => snd x <? snd y)
                                 (TradingOpportunities.movers_of symbols api))) 20.
Proof.
  intros symbols api.
  apply (top_and_bottom_are_apart_from_twenty [] 0%Z symbols api).
  vm_compute. lia.
Defined.

(** ** Missing prices *)

(** C5, amended.  [place_trades] skips a mover that has no price: no position
    is opened and nothing is logged for it.  In an iteration of [backtest]
    the positions are opened at the open prices and closed at the close
    prices of the same date, and both are read from the same rows: every
    position of the day has a close price, the close of the bar whose open it
    was entered at, and this price, never a zero put in its place, enters
    its PnL contribution and its [close] record.  [close_positions_and_log]
    itself reads the close price with the default 0: called with prices that
    lack the symbol of a position, it closes the position at price 0, in the
    PnL and in the [close] record. *)
Theorem missing_price_is_skipped_at_open_and_zero_at_close
    (historical_data : Backtest.HistoricalData) (d : Backtest.date)
    (top bottom : list (string * float)) (allocation : float)
    (prices : dict float) (position : Backtest.Trade) (file : Backtest.File) :
  let prices_open := Backtest.prices_at Backtest.open historical_data d in
  let prices_close := Backtest.prices_at Backtest.close historical_data d in
  let portfolio :=
    Backtest.place_trades (Backtest.place_trades [] top allocation prices_open "buy")
      bottom allocation prices_open "sell" in
  (forall held s change rest trade_type,
      get s prices = None ->
      Backtest.place_trades held ((s, change) :: rest) allocation prices trade_type
      = Backtest.place_trades held rest allocation prices trade_type)
  /\ Backtest.simulate_day historical_data d top bottom allocation file
     = Backtest.close_positions_and_log portfolio prices_close d
         (Backtest.log_trades_to_csv d portfolio file)
  /\ (In position portfolio ->
      exists df bar,
        In (Backtest.symbol position, df) historical_data
        /\ Backtest.loc df d = Some bar
        /\ Backtest.price position = Backtest.open bar
        /\ get (Backtest.symbol position) prices_close = Some (Backtest.close bar)
        /\ Day.pnl_contribution prices_close position
           = (Backtest.close bar - Backtest.open bar) * Backtest.quantity position
        /\ Day.closing_trade prices_close position
           = Backtest.mkTrade (Backtest.symbol position) (- Backtest.quantity position)
               (Backtest.close bar) "close")
  /\ (get (Backtest.symbol position) prices = None ->
      Backtest.close_positions_and_log [position] prices d file
      = (0 + (0 - Backtest.price position) * Backtest.quantity position,
         Backtest.log_trades_to_csv d
           [Backtest.mkTrade (Backtest.symbol position) (- Backtest.quantity position)
              0 "close"]
           file)).
Proof.
  intros prices_open prices_close portfolio. split; [|split; [|split]].
  - intros held s change rest trade_type E. cbn [Backtest.place_trades]. now rewrite E.
  - reflexivity.
  - intros Hin. unfold portfolio in Hin. rewrite !place_trades_spec in Hin.
    cbn [app] in Hin. apply in_app_or in Hin.
    assert (E : get (Backtest.symbol position) prices_open = Some (Backtest.price position))
      by (destruct Hin as [Hin|Hin]; apply opened_trades in Hin; tauto).
    apply prices_at_bar in E. destruct E as (df & bar & Hdf & Hbar & Hopen & Hclose).
    exists df, bar. fold prices_close in Hclose.
    unfold Day.pnl_contribution, Day.closing_trade, Day.close_price.
    rewrite Hclose, Hopen. repeat split; assumption.
  - intros E. unfold Backtest.close_positions_and_log. cbn [Backtest.close_positions].
    now rewrite E.
Qed.

(** The second date of the two-day store: the position in [A] is entered at
    the open 12 and closed at the close 11; with no close price at hand, the
    same position is closed at 0. *)
Lemma missing_price_of_two_day_store :
  let position := Backtest.mkTrade "A" 416 12 "buy" in
  Backtest.place_trades [] [("A", 1)] 5000 [] "buy" = []
  /\ (exists df bar,
        In ("A", df) Samples.two_day_store
        /\ Backtest.loc df 2 = Some bar
        /\ Backtest.close bar = 11
        /\ Day.pnl_contribution
             (Backtest.prices_at Backtest.close Samples.two_day_store 2) position
           = (Backtest.close bar - Backtest.open bar) * 416)
  /\ Backtest.close_positions_and_log [position] [] 2 None
     = (0 + (0 - 12) * 416,
        Some [Backtest.Header; Backtest.Row 2 "A" (-416) 0 "close"]).
Proof.
  intros position.
  destruct (missing_price_is_skipped_at_open_and_zero_at_close
              Samples.two_day_store 2%Z [("A", 1)] [] 5000 [] position None)
    as (Hskip & _ & Hday & Hzero).
  split; [|split].
  - exact (Hskip [] "A" 1 [] "buy" eq_refl).
  - destruct Hday as (df & bar & Hdf & Hbar & _ & Hclose & Hpnl & _).
    + vm_compute. left. reflexivity.
    + exists df, bar. repeat split; trivial.
      vm_compute in Hclose. now inversion Hclose.
  - exact (Hzero eq_refl).
Defined.
